(** * Threshold-signature wallet client: the demo scripts and the wallet core

    The repository consists of two TypeScript scripts that drive the
    Dynamic Labs EVM wallet SDK.  Everything the scripts do is a sequence of
    calls into the SDK, into the viem chain client and to the console, with
    [try]/[catch] around them.  The scripts are embedded as finite
    interaction programs ([Prog]): each external call is a node whose
    continuation receives the reply, so a statement about a script can
    quantify over every behaviour of the SDK.

    The session, share-store and ceremony logic that the SDK runs behind
    these calls is not part of the repository; where a property concerns it,
    it is stated on [Core], a model of that logic written from the
    specification with the remote parties as parameters. *)

From Stdlib Require Import String List ZArith Lia Bool.
From stdpp Require Import base option list gmap strings pretty fin_maps.

(** ** Values thrown by JavaScript code *)

(** A thrown value is either an [Error] object, of which the scripts read the
    class name and the [message], or any other value. *)
Inductive Thrown : Type :=
| ErrorObject (name message : string)
| NonError (shown : string).

(** [error instanceof Error ? error.message : dflt] *)
Definition message_or (dflt : string) (error : Thrown) : string :=
  match error with
  | ErrorObject _ m => m
  | NonError _ => dflt
  end.

(** [new Error(msg)] *)
Definition new_Error (msg : string) : Thrown := ErrorObject "Error" msg.

(** ** The SDK surface the scripts use *)

(** The enumeration is declared by the SDK; the scripts only ever name
    [TWO_OF_TWO]. *)
Inductive ThresholdSignatureScheme := TWO_OF_TWO | TWO_OF_THREE | THREE_OF_FIVE.

Definition Client := nat.
Definition PublicClient := nat.
Definition Signature := string.

(** Anything read from [process.env] may be [undefined]. *)
Record ProcessEnv := {
  DYNAMIC_ENVIRONMENT_ID : option string;
  DYNAMIC_AUTH_TOKEN : option string
}.

Record ClientConfig := {
  cfg_authToken : option (option string);
  cfg_environmentId : option string
}.

Record CreateWalletAccountArgs := {
  thresholdSignatureScheme : ThresholdSignatureScheme;
  password : string;
  backUpToClientShareService : bool
}.

(** What [createWalletAccount] resolves to; the scripts read three fields. *)
Record EvmWallet := {
  w_accountAddress : string;
  w_walletId : string;
  w_publicKeyHex : string
}.

Record WalletInfo := {
  accountAddress : string;
  walletId : string;
  publicKeyHex : string
}.

Record SignMessageArgs := {
  sm_message : string;
  sm_accountAddress : string;
  sm_password : string
}.

Record VerifyMessageSignatureArgs := {
  vm_accountAddress : string;
  vm_message : string;
  vm_signature : Signature
}.

Inductive Chain := base.

Record PublicClientConfig := {
  pc_chain : Chain;
  pc_rpcUrl : string
}.

Record TransactionRequest := {
  tx_to : string;
  tx_value : Z;
  tx_chain : Chain;
  tx_account : string
}.

(** The fields of a prepared transaction that the script prints; each of them
    may be missing. *)
Record PreparedTx := {
  ptx_to : option string;
  ptx_value : option Z;
  ptx_gas : option Z;
  ptx_gasPrice : option Z
}.

(** ** Console output *)

Inductive LogArg : Type :=
| Str (s : string)
| Err (e : Thrown)
| Info (w : WalletInfo)
| TxSummary (to value gas gasPrice : option string)
| EthLine (wei : Z).   (* the line [Balance in ETH: Number(wei) / 1e18], a float kept symbolic *)

Inductive Level := LLog | LError.

(** ** External calls

    The index of [Call] is the type of the reply.  A call that can reject
    replies with a sum; [createWalletAccount] also reports the errors the SDK
    handed to the [onError] callback before it settled. *)
Inductive Call : Type -> Type :=
| NewDynamicEvmWalletClient (cfg : ClientConfig) : Call (Thrown + Client)
| AuthenticateApiToken (c : Client) (token : option string) : Call (Thrown + unit)
| CreateWalletAccount (c : Client) (args : CreateWalletAccountArgs)
    : Call (list Thrown * (Thrown + EvmWallet))
| SignMessage (c : Client) (args : SignMessageArgs) : Call (Thrown + Signature)
| VerifyMessageSignature (c : Client) (args : VerifyMessageSignatureArgs)
    : Call (Thrown + bool)
| Import (module : string) : Call (Thrown + unit)
| CreateViemPublicClient (c : Client) (cfg : PublicClientConfig)
    : Call (Thrown + PublicClient)
| GetBalance (pc : PublicClient) (address : string) : Call (Thrown + Z)
| PrepareTransactionRequest (pc : PublicClient) (req : TransactionRequest)
    : Call (Thrown + PreparedTx)
| DateNowISO : Call string
| Console (lvl : Level) (args : list LogArg) : Call unit.

(** ** Interaction programs *)

Inductive Prog (A : Type) : Type :=
| Ret (a : A)
| Throw (e : Thrown)
| Vis (X : Type) (c : Call X) (k : X -> Prog A).

Arguments Ret {A} a.
Arguments Throw {A} e.
Arguments Vis {A X} c k.

Fixpoint bind {A B} (p : Prog A) (f : A -> Prog B) : Prog B :=
  match p with
  | Ret a => f a
  | Throw e => Throw e
  | Vis c k => Vis c (fun x => bind (k x) f)
  end.

(** [try { p } catch (error) { h error }] *)
Fixpoint try_catch {A} (p : Prog A) (h : Thrown -> Prog A) : Prog A :=
  match p with
  | Ret a => Ret a
  | Throw e => h e
  | Vis c k => Vis c (fun x => try_catch (k x) h)
  end.

#[global] Instance prog_ret : MRet Prog := @Ret.
#[global] Instance prog_bind : MBind Prog := fun A B f p => bind p f.

(** An infallible call. *)
Definition perform {X} (c : Call X) : Prog X := Vis c Ret.

(** [await] of a call that may reject: a rejection is thrown. *)
Definition await {X} (c : Call (Thrown + X)) : Prog X :=
  Vis c (fun r => match r with inl e => Throw e | inr x => Ret x end).

Definition console_log (args : list LogArg) : Prog unit := perform (Console LLog args).
Definition console_error (args : list LogArg) : Prog unit := perform (Console LError args).

Fixpoint for_each {X} (xs : list X) (body : X -> Prog unit) : Prog unit :=
  match xs with
  | [] => Ret tt
  | x :: rest => bind (body x) (fun _ => for_each rest body)
  end.

(** [createWalletAccount({... onError ...})]: the callback runs on every error
    the SDK reports, then the promise settles. *)
Definition createWalletAccount (c : Client) (args : CreateWalletAccountArgs)
    (onError : Thrown -> Prog unit) : Prog EvmWallet :=
  Vis (CreateWalletAccount c args) (fun r =>
    bind (for_each r.1 onError) (fun _ =>
      match r.2 with inl e => Throw e | inr w => Ret w end)).

(** ** Running a program against an environment *)

Record Event := mkEvent {
  ev_type : Type;
  ev_call : Call ev_type;
  ev_reply : ev_type
}.

Inductive Outcome (A : Type) : Type :=
| Returned (a : A)
| Raised (e : Thrown).

Arguments Returned {A} a.
Arguments Raised {A} e.

Definition Handler (W : Type) : Type := forall X, Call X -> W -> X * W.

Record Run (W A : Type) := mkRun {
  trace : list Event;
  outcome : Outcome A;
  final : W
}.

Arguments mkRun {W A} trace outcome final.
Arguments trace {W A} r.
Arguments outcome {W A} r.
Arguments final {W A} r.

Fixpoint run {W A} (h : Handler W) (p : Prog A) (w : W) : Run W A :=
  match p with
  | Ret a => mkRun [] (Returned a) w
  | Throw e => mkRun [] (Raised e) w
  | Vis c k =>
      let r := h _ c w in
      let rest := run h (k r.1) r.2 in
      mkRun (mkEvent _ c r.1 :: trace rest) (outcome rest) (final rest)
  end.

(** ** src/index.ts *)

Definition nl : string := String (Ascii.ascii_of_nat 10) EmptyString.

(** [p || dflt] on an optional string: [undefined] and the empty string are
    both falsy. *)
Definition or_else (p : option string) (dflt : string) : string :=
  match p with
  | Some (String a s) => String a s
  | Some EmptyString => dflt
  | None => dflt
  end.

(** [parseEther('0.001')] of viem: 0.001 ether expressed in wei. *)
Definition parseEther_0_001 : Z := 1000000000000000.

Definition null_address : string := "0x0000000000000000000000000000000000000000".

Module Index.
Section Script.

Variable penv : ProcessEnv.

Definition authenticatedEvmClient : Prog Client :=
  client ← await (NewDynamicEvmWalletClient
                    {| cfg_authToken := None;
                       cfg_environmentId := DYNAMIC_ENVIRONMENT_ID penv |});
  await (AuthenticateApiToken client (DYNAMIC_AUTH_TOKEN penv));;
  mret client.

Definition createNewWallet (password : option string) : Prog WalletInfo :=
  try_catch
    (evmClient ← authenticatedEvmClient;
     evmWallet ← createWalletAccount evmClient
       {| thresholdSignatureScheme := TWO_OF_TWO;
          password := or_else password "your-secure-password";
          backUpToClientShareService := true |}
       (fun error => console_error [Str "EVM wallet creation error:"; Err error]);
     let walletInfo :=
       {| accountAddress := w_accountAddress evmWallet;
          walletId := w_walletId evmWallet;
          publicKeyHex := w_publicKeyHex evmWallet |} in
     console_log [Str "✅ New wallet created successfully!"];;
     console_log [Str "📍 Address:"; Str (accountAddress walletInfo)];;
     console_log [Str "🆔 Wallet ID:"; Str (walletId walletInfo)];;
     console_log [Str "🔑 Public Key:"; Str (publicKeyHex walletInfo)];;
     mret walletInfo)
    (fun error =>
       console_error [Str "❌ Wallet creation failed:"; Err error];;
       Throw error).

Definition createViemPublicClient (evmClient : Client) : Prog PublicClient :=
  await (CreateViemPublicClient evmClient
           {| pc_chain := base; pc_rpcUrl := "https://mainnet.base.org" |}).

Definition checkWalletExists (evmClient : Client) (walletAddress : string) : Prog unit :=
  try_catch
    (await (Import "viem");;
     await (Import "viem/chains");;
     publicClient ← createViemPublicClient evmClient;
     await (GetBalance publicClient walletAddress);;
     mret tt)
    (fun error =>
       let errorMessage := message_or "Unknown error" error in
       Throw (new_Error ("Wallet verification failed: " +:+ errorMessage))).

Definition initializeExistingWallet (walletAddress : string) : Prog (Client * string) :=
  try_catch
    (evmClient ← authenticatedEvmClient;
     console_log [Str "🔄 Initializing existing wallet:"; Str walletAddress];;
     checkWalletExists evmClient walletAddress;;
     console_log [Str "✅ Wallet initialized successfully!"];;
     mret (evmClient, walletAddress))
    (fun error =>
       console_error [Str "❌ Failed to initialize wallet:"; Err error];;
       Throw error).

Definition checkBalance (evmClient : Client) (walletAddress : string) : Prog unit :=
  try_catch
    (await (Import "viem");;
     await (Import "viem/chains");;
     publicClient ← createViemPublicClient evmClient;
     balance ← await (GetBalance publicClient walletAddress);
     console_log [Str ("💰 Balance: " +:+ pretty balance +:+ " wei")];;
     console_log [EthLine balance])
    (fun error =>
       let errorMessage := message_or "Unknown error" error in
       console_error [Str "❌ Balance check failed:"; Str errorMessage]).

Definition signMessage (evmClient : Client) (walletAddress password : string) : Prog unit :=
  try_catch
    (now ← perform DateNowISO;
     let message := "Hello from wallet " +:+ walletAddress +:+ " at " +:+ now in
     signature ← await (SignMessage evmClient
                          {| sm_message := message;
                             sm_accountAddress := walletAddress;
                             sm_password := password |});
     console_log [Str "✍️  Message signed:"; Str message];;
     console_log [Str "🔏 Signature:"; Str signature];;
     isValid ← await (VerifyMessageSignature evmClient
                        {| vm_accountAddress := walletAddress;
                           vm_message := message;
                           vm_signature := signature |});
     console_log [Str "✅ Signature verification:";
                  Str (if isValid : bool then "Valid" else "Invalid")])
    (fun error =>
       let errorMessage := message_or "Unknown error" error in
       console_error [Str "❌ Message signing failed:"; Str errorMessage]).

Definition prepareTransaction (evmClient : Client) (walletAddress : string) : Prog unit :=
  try_catch
    (await (Import "viem");;
     await (Import "viem/chains");;
     await (Import "viem/utils");;
     publicClient ← createViemPublicClient evmClient;
     preparedTx ← await (PrepareTransactionRequest publicClient
                           {| tx_to := null_address;
                              tx_value := parseEther_0_001;
                              tx_chain := base;
                              tx_account := walletAddress |});
     console_log [Str "📝 Transaction prepared:";
                  TxSummary (ptx_to preparedTx)
                            (pretty <$> ptx_value preparedTx)
                            (pretty <$> ptx_gas preparedTx)
                            (pretty <$> ptx_gasPrice preparedTx)];;
     console_log [Str "ℹ️  Note: Transaction not sent - this is just preparation demo"])
    (fun error =>
       let errorMessage := message_or "Unknown error" error in
       console_error [Str "❌ Transaction preparation failed:"; Str errorMessage]).

Definition performWalletOperations (walletAddress password : string) : Prog unit :=
  console_log [Str (nl +:+ "--- 💼 Wallet Operations ---")];;
  try_catch
    (evmClient ← authenticatedEvmClient;
     checkBalance evmClient walletAddress;;
     signMessage evmClient walletAddress password;;
     prepareTransaction evmClient walletAddress)
    (fun error => console_error [Str "❌ Wallet operations failed:"; Err error]).

Definition randomWalletAddress : string := "0x742d35Cc64C1b0ED5bbE8db88b556F0f0b7E9999".

Definition demonstrateSecurity : Prog unit :=
  console_log [Str (nl +:+ "🔒 Security Demonstration:")];;
  try_catch
    (evmClient ← authenticatedEvmClient;
     console_log [Str "🚨 Attempting to sign with unauthorized wallet:";
                  Str randomWalletAddress];;
     signature ← await (SignMessage evmClient
                          {| sm_message := "Unauthorized access attempt";
                             sm_accountAddress := randomWalletAddress;
                             sm_password := "any-password" |});
     console_log [Str "❌ This should not work!"])
    (fun error =>
       console_log [Str "✅ Security working! Cannot access unauthorized wallet:"];;
       let errorMessage := message_or "Access denied" error in
       console_log [Str "   Error:"; Str errorMessage]).

Definition main : Prog unit :=
  console_log [Str ("🚀 Starting wallet operations..." +:+ nl)];;
  try_catch
    (console_log [Str "=== Creating New Wallet ==="];;
     newWallet ← createNewWallet (Some "my-secure-password");
     console_log [Str (nl +:+ "New Wallet Address:"); Info newWallet])
    (fun error => console_error [Str "❌ Main execution failed:"; Err error]).

End Script.
End Index.

(** ** src/unnamed/part_000: the quick-start script *)

Module Quickstart.
Section Script.

Variable penv : ProcessEnv.

Definition authenticatedEvmClient : Prog Client :=
  client ← await (NewDynamicEvmWalletClient
                    {| cfg_authToken := Some (DYNAMIC_AUTH_TOKEN penv);
                       cfg_environmentId := DYNAMIC_ENVIRONMENT_ID penv |});
  await (AuthenticateApiToken client (DYNAMIC_AUTH_TOKEN penv));;
  mret client.

Definition main : Prog unit :=
  try_catch
    (evmClient ← authenticatedEvmClient;
     evmWallet ← createWalletAccount evmClient
       {| thresholdSignatureScheme := TWO_OF_TWO;
          password := "your-secure-password";
          backUpToClientShareService := true |}
       (fun error => console_error [Str "EVM wallet creation error:"; Err error]);
     console_log [Str "EVM wallet created:"; Str (w_accountAddress evmWallet)])
    (fun error => console_error [Str "Error:"; Err error]).

End Script.
End Quickstart.

(** ** Reasoning about programs and their runs *)

(** The error a call was rejected with, if its reply is a rejection.  Errors
    handed to [onError] are reports, not rejections. *)
Definition rejected {X} (c : Call X) : X -> option Thrown :=
  match c in Call X return X -> option Thrown with
  | NewDynamicEvmWalletClient _ => fun r => match r with inl e => Some e | inr _ => None end
  | AuthenticateApiToken _ _ => fun r => match r with inl e => Some e | inr _ => None end
  | CreateWalletAccount _ _ => fun r => match r.2 with inl e => Some e | inr _ => None end
  | SignMessage _ _ => fun r => match r with inl e => Some e | inr _ => None end
  | VerifyMessageSignature _ _ => fun r => match r with inl e => Some e | inr _ => None end
  | Import _ => fun r => match r with inl e => Some e | inr _ => None end
  | CreateViemPublicClient _ _ => fun r => match r with inl e => Some e | inr _ => None end
  | GetBalance _ _ => fun r => match r with inl e => Some e | inr _ => None end
  | PrepareTransactionRequest _ _ => fun r => match r with inl e => Some e | inr _ => None end
  | DateNowISO => fun _ => None
  | Console _ _ => fun _ => None
  end.

Definition ev_rejected (ev : Event) : option Thrown := rejected (ev_call ev) (ev_reply ev).

(** The rejections met during a run, oldest first. *)
Definition rejections (tr : list Event) : list Thrown := omap ev_rejected tr.

Definition is_console {X} (c : Call X) : bool :=
  match c with Console _ _ => true | _ => false end.

Definition is_sign {X} (c : Call X) : bool :=
  match c with SignMessage _ _ => true | _ => false end.

Definition is_verify {X} (c : Call X) : bool :=
  match c with VerifyMessageSignature _ _ => true | _ => false end.

Definition is_create {X} (c : Call X) : bool :=
  match c with CreateWalletAccount _ _ => true | _ => false end.

Definition is_authenticate {X} (c : Call X) : bool :=
  match c with
  | NewDynamicEvmWalletClient _ | AuthenticateApiToken _ _ => true
  | _ => false
  end.

(** Calls that only read from the chain client or load a module. *)
Definition is_chain_read {X} (c : Call X) : bool :=
  match c with
  | Import _ | CreateViemPublicClient _ _ | GetBalance _ _
  | PrepareTransactionRequest _ _ => true
  | _ => false
  end.

(** What the console received during a run. *)
Definition console_line (ev : Event) : option (Level * list LogArg) :=
  match ev_call ev with
  | Console lvl args => Some (lvl, args)
  | _ => None
  end.

Definition console (tr : list Event) : list (Level * list LogArg) := omap console_line tr.

(** Every call the program can ever issue satisfies [P]. *)
Fixpoint AllCalls {A} (P : forall X, Call X -> Prop) (p : Prog A) : Prop :=
  match p with
  | Ret _ => True
  | Throw _ => True
  | Vis c k => P _ c /\ forall x, AllCalls P (k x)
  end.

(** The program completes normally whatever the replies are. *)
Fixpoint NoThrow {A} (p : Prog A) : Prop :=
  match p with
  | Ret _ => True
  | Throw _ => False
  | Vis c k => forall x, NoThrow (k x)
  end.

(** The program surfaces rejections: it throws exactly the latest rejection
    it met and returns only when it met none ([pending] is the latest
    rejection before the program starts). *)
Fixpoint Surfaces {A} (pending : option Thrown) (p : Prog A) : Prop :=
  match p with
  | Ret _ => pending = None
  | Throw e => pending = Some e
  | Vis c k =>
      forall x, Surfaces (match rejected c x with Some e => Some e | None => pending end) (k x)
  end.

(** What a run did after the first rejection it met. *)
Fixpoint after_rejection (tr : list Event) : list Event :=
  match tr with
  | [] => []
  | ev :: rest =>
      match ev_rejected ev with
      | Some _ => rest
      | None => after_rejection rest
      end
  end.

(** Once a call is rejected the program only writes to the console. *)
Fixpoint QuietAfter {A} (p : Prog A) : Prop :=
  match p with
  | Ret _ => True
  | Throw _ => True
  | Vis c k =>
      forall x,
        match rejected c x with
        | Some _ => AllCalls (fun X c => is_console c = true) (k x)
        | None => QuietAfter (k x)
        end
  end.

(** *** Unfolding the scripts *)

Ltac prog_unfold :=
  unfold Index.main, Index.demonstrateSecurity, Index.performWalletOperations,
    Index.prepareTransaction, Index.signMessage, Index.checkBalance,
    Index.initializeExistingWallet, Index.checkWalletExists,
    Index.createViemPublicClient, Index.createNewWallet,
    Index.authenticatedEvmClient, Quickstart.main, Quickstart.authenticatedEvmClient,
    createWalletAccount, console_log, console_error, await, perform,
    mbind, prog_bind, mret, prog_ret in *.

(** ** Scripted environments

    A stateless SDK given by what each call answers; client handles are
    numbered in the order they are constructed, and the public client of a
    client carries its number. *)
Record Sdk := {
  sdk_authenticate : option string -> Thrown + unit;
  sdk_create : CreateWalletAccountArgs -> list Thrown * (Thrown + EvmWallet);
  sdk_sign : SignMessageArgs -> Thrown + Signature;
  sdk_verify : VerifyMessageSignatureArgs -> Thrown + bool;
  sdk_balance : string -> Thrown + Z;
  sdk_prepare : TransactionRequest -> Thrown + PreparedTx
}.

Definition scripted (s : Sdk) : Handler nat := fun X c =>
  match c in Call X return nat -> X * nat with
  | NewDynamicEvmWalletClient _ => fun n => (inr n, S n)
  | AuthenticateApiToken _ token => fun n => (sdk_authenticate s token, n)
  | CreateWalletAccount _ args => fun n => (sdk_create s args, n)
  | SignMessage _ args => fun n => (sdk_sign s args, n)
  | VerifyMessageSignature _ args => fun n => (sdk_verify s args, n)
  | Import _ => fun n => (inr tt, n)
  | CreateViemPublicClient c _ => fun n => (inr c, n)
  | GetBalance _ address => fun n => (sdk_balance s address, n)
  | PrepareTransactionRequest _ req => fun n => (sdk_prepare s req, n)
  | DateNowISO => fun n => ("2025-01-01T00:00:00.000Z", n)
  | Console _ _ => fun n => (tt, n)
  end.

Definition demo_env : ProcessEnv :=
  {| DYNAMIC_ENVIRONMENT_ID := Some "env-1"; DYNAMIC_AUTH_TOKEN := Some "token-1" |}.

Definition demo_wallet : EvmWallet :=
  {| w_accountAddress := "0x6465482b114FC64E2Bbd0DE02DA21A9A4854Bc4b";
     w_walletId := "wallet-1";
     w_publicKeyHex := "0x04ab" |}.

(** An SDK on which every call succeeds. *)
Definition friendly : Sdk :=
  {| sdk_authenticate := fun _ => inr tt;
     sdk_create := fun _ => ([], inr demo_wallet);
     sdk_sign := fun args => inr ("sig:" +:+ sm_message args);
     sdk_verify := fun _ => inr true;
     sdk_balance := fun _ => inr 0%Z;
     sdk_prepare := fun req =>
       inr {| ptx_to := Some (tx_to req); ptx_value := Some (tx_value req);
              ptx_gas := Some 21000%Z; ptx_gasPrice := Some 1000000%Z |} |}.

(** An SDK whose client holds no key share at all: chain reads work, every
    signing request is refused. *)
Definition shareless : Sdk :=
  {| sdk_authenticate := fun _ => inr tt;
     sdk_create := fun _ => ([], inl (ErrorObject "CeremonyAborted" "counter-party unreachable"));
     sdk_sign := fun _ => inl (ErrorObject "NoLocalShare" "no key share for this account");
     sdk_verify := fun _ => inr false;
     sdk_balance := fun _ => inr 0%Z;
     sdk_prepare := fun _ => inl (ErrorObject "ChainUnavailable" "rpc down") |}.

(** An SDK whose chain client refuses to read the balance. *)
Definition unreadable : Sdk :=
  {| sdk_authenticate := fun _ => inr tt;
     sdk_create := fun _ => ([], inl (ErrorObject "CeremonyAborted" "counter-party unreachable"));
     sdk_sign := fun _ => inl (ErrorObject "NoLocalShare" "no key share for this account");
     sdk_verify := fun _ => inr false;
     sdk_balance := fun _ => inl (ErrorObject "Unauthorized" "share not controlled");
     sdk_prepare := fun _ => inl (ErrorObject "ChainUnavailable" "rpc down") |}.

Definition create_args (ev : Event) : option CreateWalletAccountArgs :=
  match ev_call ev with
  | CreateWalletAccount _ args => Some args
  | _ => None
  end.

(** What [createWalletAccount] answered: the errors it reported through
    [onError] and how it settled. *)
Definition create_reply (ev : Event) : option (list Thrown * (Thrown + EvmWallet)) :=
  match ev_call ev in Call X return X -> option (list Thrown * (Thrown + EvmWallet)) with
  | CreateWalletAccount _ _ => fun r => Some r
  | _ => fun _ => None
  end (ev_reply ev).

(** The signing request an event carries, with the client it is made on. *)
Definition sign_request (ev : Event) : option (Client * SignMessageArgs) :=
  match ev_call ev with
  | SignMessage cl args => Some (cl, args)
  | _ => None
  end.

(** A signing request together with the signature it was answered with. *)
Definition signed (ev : Event) : option (SignMessageArgs * Signature) :=
  match ev_call ev in Call X return X -> option (SignMessageArgs * Signature) with
  | SignMessage _ args =>
      fun r => match r with inr signature => Some (args, signature) | inl _ => None end
  | _ => fun _ => None
  end (ev_reply ev).

Definition verify_request (ev : Event) : option VerifyMessageSignatureArgs :=
  match ev_call ev with
  | VerifyMessageSignature _ args => Some args
  | _ => None
  end.

Definition fixed_options (pw : option string) (X : Type) (c : Call X) : Prop :=
  match c with
  | CreateWalletAccount _ args =>
      thresholdSignatureScheme args = TWO_OF_TWO /\
      backUpToClientShareService args = true /\
      password args <> EmptyString /\
      password args =
        match pw with
        | None => "your-secure-password"
        | Some s => if String.eqb s EmptyString then "your-secure-password" else s
        end
  | _ => True
  end.


Definition demo_create_event (pw : string) : Event :=
  mkEvent _ (CreateWalletAccount 0
               {| thresholdSignatureScheme := TWO_OF_TWO;
                  password := pw;
                  backUpToClientShareService := true |})
          ([], inr demo_wallet).

(** ** Transaction preparation *)

Definition prepare_request (ev : Event) : option TransactionRequest :=
  match ev_call ev with
  | PrepareTransactionRequest _ req => Some req
  | _ => None
  end.

(** The prepared transactions a run obtained from the chain client. *)
Definition prepared_reply (ev : Event) : option PreparedTx :=
  match ev_call ev in Call X return X -> option PreparedTx with
  | PrepareTransactionRequest _ _ =>
      fun r => match r with inr ptx => Some ptx | inl _ => None end
  | _ => fun _ => None
  end (ev_reply ev).

Definition prepared (tr : list Event) : list PreparedTx := omap prepared_reply tr.

(** The prepared transactions as the script prints them. *)
Definition printed_summary (line : Level * list LogArg) : option LogArg :=
  match line with
  | (LLog, [Str _; TxSummary to value gas gasPrice]) => Some (TxSummary to value gas gasPrice)
  | _ => None
  end.

Definition printed_transactions (tr : list Event) : list LogArg :=
  omap printed_summary (console tr).

(** A call of the preparation path: module loading, chain reads, console. *)
Definition preparation_call (X : Type) (c : Call X) : Prop :=
  is_chain_read c || is_console c = true.

(** Unchanged chain state: what the chain client (and the module loader and
    the console) answer does not depend on the state of the world the call
    is made in. *)
Definition chain_unchanged {W} (h : Handler W) : Prop :=
  forall X (c : Call X) (w w' : W), preparation_call X c -> (h X c w).1 = (h X c w').1.

(** ** Sessions

    The sessions a run has established: which client handles were
    constructed, for which environment, and which of them the identity
    service has accepted. *)
Record Sessions := {
  constructed : gmap Client (option string);
  authenticated : gmap Client (option string)
}.

Definition no_sessions : Sessions := {| constructed := ∅; authenticated := ∅ |}.

(** The effect of a call and its reply on the established sessions: a
    constructed handle is a new, not yet authenticated client; an accepted
    [authenticateApiToken] makes the handle a session of the environment it
    was constructed for. *)
Definition establish {X} (c : Call X) : X -> Sessions -> Sessions :=
  match c in Call X return X -> Sessions -> Sessions with
  | NewDynamicEvmWalletClient cfg => fun r s =>
      match r with
      | inr cl => {| constructed := <[cl := cfg_environmentId cfg]> (constructed s);
                     authenticated := delete cl (authenticated s) |}
      | inl _ => s
      end
  | AuthenticateApiToken cl _ => fun r s =>
      match r, constructed s !! cl with
      | inr _, Some env => {| constructed := constructed s;
                              authenticated := <[cl := env]> (authenticated s) |}
      | _, _ => s
      end
  | _ => fun _ s => s
  end.

(** The client handle an operation is performed on (every method of the
    client except the authentication itself). *)
Definition session_of {X} (c : Call X) : option Client :=
  match c with
  | CreateWalletAccount cl _ | SignMessage cl _ | VerifyMessageSignature cl _
  | CreateViemPublicClient cl _ => Some cl
  | _ => None
  end.

Definition presents_session (env : option string) (s : Sessions) {X} (c : Call X) : bool :=
  match session_of c with
  | Some cl => bool_decide (authenticated s !! cl = Some env)
  | None => true
  end.

(** Every client operation of the trace is performed on a handle that was
    authenticated, earlier in the same trace, for environment [env]. *)
Fixpoint disciplined (env : option string) (s : Sessions) (tr : list Event) : bool :=
  match tr with
  | [] => true
  | ev :: rest =>
      presents_session env s (ev_call ev) &&
      disciplined env (establish (ev_call ev) (ev_reply ev) s) rest
  end.

Fixpoint Disciplined {A} (env : option string) (s : Sessions) (p : Prog A) : Prop :=
  match p with
  | Ret _ => True
  | Throw _ => True
  | Vis c k =>
      presents_session env s c = true /\
      forall x, Disciplined env (establish c x s) (k x)
  end.

Definition is_new_client {X} (c : Call X) : bool :=
  match c with NewDynamicEvmWalletClient _ => true | _ => false end.

(** How many clients a run constructed. *)
Definition clients_constructed (tr : list Event) : nat :=
  length (filter (fun ev => is_new_client (ev_call ev) = true) tr).

(** Every complete path of the program constructs exactly [n] clients. *)
Fixpoint Constructs {A} (n : nat) (p : Prog A) : Prop :=
  match p with
  | Ret _ => n = 0
  | Throw _ => n = 0
  | Vis c k =>
      if is_new_client c
      then match n with
           | S m => forall x, Constructs m (k x)
           | O => False
           end
      else forall x, Constructs n (k x)
  end.

(** The configuration the scripts authenticate with. *)
Definition uses_process_credentials (penv : ProcessEnv) (X : Type) (c : Call X) : Prop :=
  match c with
  | NewDynamicEvmWalletClient cfg => cfg_environmentId cfg = DYNAMIC_ENVIRONMENT_ID penv
  | AuthenticateApiToken _ token => token = DYNAMIC_AUTH_TOKEN penv
  | _ => True
  end.

(** The operations the script exports or runs at top level. *)
Inductive Operation :=
| OpCreateNewWallet (password : option string)
| OpInitializeExistingWallet (walletAddress : string)
| OpPerformWalletOperations (walletAddress password : string)
| OpDemonstrateSecurity
| OpMain.

Definition operation (penv : ProcessEnv) (op : Operation) : Prog unit :=
  match op with
  | OpCreateNewWallet password => Index.createNewWallet penv password ;; mret tt
  | OpInitializeExistingWallet walletAddress =>
      Index.initializeExistingWallet penv walletAddress ;; mret tt
  | OpPerformWalletOperations walletAddress password =>
      Index.performWalletOperations penv walletAddress password
  | OpDemonstrateSecurity => Index.demonstrateSecurity penv
  | OpMain => Index.main penv
  end.

(** The latest rejection known after a run, [pending] being the latest one
    known before it. *)
Definition latest (pending : option Thrown) (tr : list Event) : option Thrown :=
  match last (rejections tr) with
  | Some e => Some e
  | None => pending
  end.

(** A call that cannot be rejected. *)
Definition never_rejected (X : Type) (c : Call X) : Prop :=
  forall x, rejected c x = None.

(** ** Sample events of the scripted environments *)

Definition no_share : Thrown := ErrorObject "NoLocalShare" "no key share for this account".

Definition refused_sign_event : Event :=
  mkEvent _ (SignMessage 0
               {| sm_message :=
                    "Hello from wallet 0x742d35Cc64C1b0ED5bbE8db88b556F0f0b7E9999 at 2025-01-01T00:00:00.000Z";
                  sm_accountAddress := Index.randomWalletAddress;
                  sm_password := "any-password" |})
          (inl no_share).

(** An SDK whose key generation succeeds while the backup does not: the
    failure is handed to [onError] and the wallet is returned. *)
Definition backup_failed : Thrown := ErrorObject "BackupFailed" "backup upload failed".

Definition reporting : Sdk :=
  {| sdk_authenticate := fun _ => inr tt;
     sdk_create := fun _ => ([backup_failed], inr demo_wallet);
     sdk_sign := fun args => inr ("sig:" +:+ sm_message args);
     sdk_verify := fun _ => inr true;
     sdk_balance := fun _ => inr 0%Z;
     sdk_prepare := fun _ => inl (ErrorObject "ChainUnavailable" "rpc down") |}.

Definition reported_create_event : Event :=
  mkEvent _ (CreateWalletAccount 0
               {| thresholdSignatureScheme := TWO_OF_TWO;
                  password := "your-secure-password";
                  backUpToClientShareService := true |})
          ([backup_failed], inr demo_wallet).

Definition refused_demo_event : Event :=
  mkEvent _ (SignMessage 0
               {| sm_message := "Unauthorized access attempt";
                  sm_accountAddress := Index.randomWalletAddress;
                  sm_password := "any-password" |})
          (inl no_share).

Definition refused_balance_event : Event :=
  mkEvent _ (GetBalance 0 Index.randomWalletAddress)
          (inl (ErrorObject "Unauthorized" "share not controlled")).

(** ** The wallet core behind the SDK

    The scripts only call [signMessage], [createWalletAccount] and the like;
    the session, share-store and ceremony logic behind these calls lives in
    the SDK, outside this repository.  It is modelled here from the
    specification, with the remote parties (identity service, key-generation
    and signing counter-party, backup service) as parameters. *)

Module Core.

(** Modelled from the spec: the data model of section 3 (Session,
    WalletAccount, ShareRecord), which the SDK keeps to itself. *)
Record Session := {
  session_credential : string;
  session_environmentId : string;
  session_authenticatedAt : nat
}.

(** Modelled from the spec: a WalletAccount of section 3, which the SDK
    keeps to itself; the scheme and the optional password are fixed at
    creation. *)
Record WalletAccount := {
  account_address : string;
  account_walletId : string;
  account_publicKeyHex : string;
  account_thresholdScheme : ThresholdSignatureScheme;
  account_encryptionPassword : option string
}.

(** Modelled from the spec: a ShareRecord of section 3, the entry of the
    SDK's Share Store; the share material is opaque. *)
Record ShareRecord := {
  share_walletId : string;
  share_material : string;
  share_backedUp : bool
}.

(** Modelled from the spec: the error kinds of [createAccount] (section 4.2),
    raised inside the SDK. *)
Inductive CreationError := CeremonyAborted | DuplicateAccount | BackupFailed.

(** Modelled from the spec: the error kinds of [sign] (section 4.3), raised
    inside the SDK. *)
Inductive SigningError :=
| Unauthenticated
| NoLocalShare
| PasswordMismatch
| CeremonyFailed
| CounterpartyUnavailable.

(** Modelled from the spec: what a key-generation ceremony hands to this
    client of the two shares it produces for the 2-of-2 scheme. *)
Record KeyGeneration := {
  kg_address : string;
  kg_walletId : string;
  kg_publicKeyHex : string;
  kg_localShare : string;
  kg_remoteShare : string
}.

(** Modelled from the spec: how the counter-party answers a signing
    ceremony (it cooperates, it refuses or times out, it cannot be reached). *)
Inductive CeremonyReply :=
| Cooperates (signature : Signature)
| Refuses
| Unreachable.

(** Modelled from the spec: the remote parties of section 6.  The ceremonies
    are indexed by the number of ceremonies run before them, so that two
    ceremonies need not agree. *)
Record Collaborators := {
  identity_accepts : Session -> bool;
  dkg_ceremony : nat -> Session -> ThresholdSignatureScheme -> option KeyGeneration;
  seal_share : Session -> string -> string;
  backup_upload : string -> string -> bool;
  signing_ceremony : nat -> string -> string -> CeremonyReply
}.

(** Modelled from the spec: the ceremonies the SDK has run with the
    counter-party, oldest first. *)
Inductive Ceremony :=
| GeneratedKey (scheme : ThresholdSignatureScheme)
| SignedMessage (address message : string).

(** Modelled from the spec: the client's state: the accounts it knows, each
    with the environment it was created in, the Share Store keyed by account
    address, and the ceremonies run so far. *)
Record State := {
  accounts : gmap string (WalletAccount * string);
  shares : gmap string ShareRecord;
  ceremonies : list Ceremony
}.

(** A client that has created or recovered nothing yet. *)
Definition empty_state : State := {| accounts := ∅; shares := ∅; ceremonies := [] |}.

(** Modelled from the spec: what [createAccount] yields: the account,
    together with a reported non-fatal condition if there is one, or a
    failure. *)
Inductive Creation :=
| Created (account : WalletAccount) (reported : option CreationError)
| CreationFailed (e : CreationError).

(** Modelled from the spec: [createAccount] of the Wallet Lifecycle Manager
    (section 4.2), which is inside the SDK and not part of the sources.  The
    key-generation ceremony runs with the counter-party; on success exactly
    one ShareRecord is inserted, also when the backup upload fails, in which
    case [BackupFailed] is reported next to the account and the record is
    flagged as not backed up. *)
Definition createAccount (ext : Collaborators) (st : State) (session : Session)
    (thresholdScheme : ThresholdSignatureScheme) (password : option string)
    (backupEnabled : bool) : Creation * State :=
  let ran := {| accounts := accounts st; shares := shares st;
                ceremonies := ceremonies st ++ [GeneratedKey thresholdScheme] |} in
  match dkg_ceremony ext (length (ceremonies st)) session thresholdScheme with
  | None => (CreationFailed CeremonyAborted, ran)
  | Some kg =>
      match accounts st !! kg_address kg, shares st !! kg_address kg with
      | None, None =>
          let uploaded :=
            backupEnabled &&
            backup_upload ext (kg_walletId kg) (seal_share ext session (kg_remoteShare kg)) in
          let account :=
            {| account_address := kg_address kg;
               account_walletId := kg_walletId kg;
               account_publicKeyHex := kg_publicKeyHex kg;
               account_thresholdScheme := thresholdScheme;
               account_encryptionPassword := password |} in
          let record :=
            {| share_walletId := kg_walletId kg;
               share_material := kg_localShare kg;
               share_backedUp := uploaded |} in
          (Created account
             (if backupEnabled && negb uploaded then Some BackupFailed else None),
           {| accounts := <[kg_address kg := (account, session_environmentId session)]>
                            (accounts st);
              shares := <[kg_address kg := record]> (shares st);
              ceremonies := ceremonies ran |})
      | _, _ => (CreationFailed DuplicateAccount, ran)
      end
  end.

(** Modelled from the spec: precondition (a) of [sign]: the session is valid
    and scoped to the environment the account was created in (an account this
    client does not know imposes no environment). *)
Definition session_scoped (ext : Collaborators) (st : State) (session : Session)
    (accountAddress : string) : bool :=
  identity_accepts ext session &&
  match accounts st !! accountAddress with
  | Some (_, environment) => String.eqb environment (session_environmentId session)
  | None => true
  end.

(** Modelled from the spec: precondition (c) of [sign]: if the account was
    created with a password, the supplied one matches. *)
Definition password_matches (st : State) (accountAddress : string)
    (password : option string) : bool :=
  match accounts st !! accountAddress with
  | Some (account, _) =>
      match account_encryptionPassword account with
      | Some expected => bool_decide (password = Some expected)
      | None => true
      end
  | None => true
  end.

(** Modelled from the spec: [sign] of the Signing Coordinator (section 4.3),
    which is inside the SDK and not part of the sources.  The three
    preconditions are checked in order; only when all hold is the signing
    ceremony run with the counter-party. *)
Definition sign (ext : Collaborators) (st : State) (session : Session)
    (accountAddress message : string) (password : option string)
    : (SigningError + Signature) * State :=
  if negb (session_scoped ext st session accountAddress) then (inl Unauthenticated, st)
  else
    match shares st !! accountAddress with
    | None => (inl NoLocalShare, st)
    | Some record =>
        if negb (password_matches st accountAddress password)
        then (inl PasswordMismatch, st)
        else
          let ran := {| accounts := accounts st; shares := shares st;
                        ceremonies := ceremonies st ++
                                      [SignedMessage accountAddress message] |} in
          match signing_ceremony ext (length (ceremonies st)) (share_material record) message with
          | Cooperates signature => (inr signature, ran)
          | Refuses => (inl CeremonyFailed, ran)
          | Unreachable => (inl CounterpartyUnavailable, ran)
          end
    end.

(** A scripted set of remote parties: the identity service accepts the
    credential "token-1", key generation always succeeds with the same key,
    the backup service is down, and the counter-party cooperates. *)
Definition demo_parties : Collaborators :=
  {| identity_accepts := fun s => String.eqb (session_credential s) "token-1";
     dkg_ceremony := fun _ _ _ =>
       Some {| kg_address := "0x6465482b114FC64E2Bbd0DE02DA21A9A4854Bc4b";
               kg_walletId := "wallet-1";
               kg_publicKeyHex := "0x04ab";
               kg_localShare := "share-local";
               kg_remoteShare := "share-remote" |};
     seal_share := fun _ share => "sealed:" +:+ share;
     backup_upload := fun _ _ => false;
     signing_ceremony := fun _ share message => Cooperates ("sig:" +:+ message) |}.

Definition demo_session : Session :=
  {| session_credential := "token-1";
     session_environmentId := "env-1";
     session_authenticatedAt := 0 |}.

Definition demo_key : KeyGeneration :=
  {| kg_address := "0x6465482b114FC64E2Bbd0DE02DA21A9A4854Bc4b";
     kg_walletId := "wallet-1";
     kg_publicKeyHex := "0x04ab";
     kg_localShare := "share-local";
     kg_remoteShare := "share-remote" |}.

Definition demo_account : WalletAccount :=
  {| account_address := "0x6465482b114FC64E2Bbd0DE02DA21A9A4854Bc4b";
     account_walletId := "wallet-1";
     account_publicKeyHex := "0x04ab";
     account_thresholdScheme := TWO_OF_TWO;
     account_encryptionPassword := Some "my-secure-password" |}.

(** The state after creating a wallet with password "my-secure-password". *)
Definition demo_state : State :=
  (createAccount demo_parties empty_state demo_session TWO_OF_TWO
     (Some "my-secure-password") true).2.

End Core.

(** ** Accounts and the environment they were created in

    The script names an account by its address only; which environment an
    account belongs to is decided when the SDK creates it, on the client that
    asked for it. *)

(** The environment each known account was created in, by account address
    (the environment is what [DYNAMIC_ENVIRONMENT_ID] held, possibly
    undefined). *)
Definition Origins := gmap string (option string).

(** A wallet the SDK created belongs to the environment of the session that
    asked for it. *)
Definition originate (s : Sessions) {X} (c : Call X) : X -> Origins -> Origins :=
  match c in Call X return X -> Origins -> Origins with
  | CreateWalletAccount cl _ => fun r o =>
      match r.2, authenticated s !! cl with
      | inr wallet, Some env => <[w_accountAddress wallet := env]> o
      | _, _ => o
      end
  | _ => fun _ o => o
  end.

(** The account a client operation is made against, with the client it is
    made on: [signMessage] and [verifyMessageSignature] are the methods of
    the client that take an [accountAddress]. *)
Definition account_of {X} (c : Call X) : option (Client * string) :=
  match c with
  | SignMessage cl args => Some (cl, sm_accountAddress args)
  | VerifyMessageSignature cl args => Some (cl, vm_accountAddress args)
  | _ => None
  end.

(** The call presents a session, and the session is of the environment the
    account was created in when that environment is known. *)
Definition in_scope (s : Sessions) (o : Origins) {X} (c : Call X) : bool :=
  match account_of c with
  | Some (cl, address) =>
      match authenticated s !! cl, o !! address with
      | Some env, Some origin => bool_decide (env = origin)
      | Some _, None => true
      | None, _ => false
      end
  | None => true
  end.

(** Every operation against an account, along the trace, is in scope. *)
Fixpoint scoped (s : Sessions) (o : Origins) (tr : list Event) : bool :=
  match tr with
  | [] => true
  | ev :: rest =>
      in_scope s o (ev_call ev) &&
      scoped (establish (ev_call ev) (ev_reply ev) s)
             (originate s (ev_call ev) (ev_reply ev) o) rest
  end.

(** The accounts known after a run. *)
Fixpoint origins_after (s : Sessions) (o : Origins) (tr : list Event) : Origins :=
  match tr with
  | [] => o
  | ev :: rest =>
      origins_after (establish (ev_call ev) (ev_reply ev) s)
                    (originate s (ev_call ev) (ev_reply ev) o) rest
  end.

(** All known accounts were created in environment [env]. *)
Definition created_in (env : option string) (o : Origins) : Prop :=
  forall address origin, o !! address = Some origin -> origin = env.

(** ** The age of a session

    The script has no clock of its own for sessions; the age of a session is
    counted in calls: how many calls the run has made since a token was last
    accepted ([None] before any was). *)
Definition accepts_token {X} (c : Call X) : X -> bool :=
  match c in Call X return X -> bool with
  | AuthenticateApiToken _ _ => fun r => match r with inr _ => true | inl _ => false end
  | _ => fun _ => false
  end.

Definition tick {X} (c : Call X) (x : X) (age : option nat) : option nat :=
  if accepts_token c x then Some 0 else S <$> age.

(** The session a client operation presents is at most [limit] calls old. *)
Definition young (limit : nat) (age : option nat) {X} (c : Call X) : bool :=
  match session_of c, age with
  | Some _, Some n => n <=? limit
  | Some _, None => false
  | None, _ => true
  end.

Fixpoint fresh (limit : nat) (age : option nat) (tr : list Event) : bool :=
  match tr with
  | [] => true
  | ev :: rest =>
      young limit age (ev_call ev) &&
      fresh limit (tick (ev_call ev) (ev_reply ev) age) rest
  end.

Fixpoint Fresh {A} (limit : nat) (age : option nat) (p : Prog A) : Prop :=
  match p with
  | Ret _ => True
  | Throw _ => True
  | Vis c k =>
      young limit age c = true /\
      forall x, Fresh limit (tick c x age) (k x)
  end.

(** ** Concurrent callers

    Two operations started together, as in [Promise.all([p, q])]: JavaScript
    runs one of them at a time and may switch between them where one awaits.
    The schedule says, call by call, which caller proceeds; a caller that has
    finished is skipped, and when the schedule is used up the callers run to
    completion one after the other.  Switching at every call covers every
    switch at an [await]. *)
Inductive Caller := First | Second.

Definition same_caller (a b : Caller) : bool :=
  match a, b with
  | First, First | Second, Second => true
  | _, _ => false
  end.

Fixpoint run_both {W A B} (h : Handler W) (p : Prog A)
    : Prog B -> list Caller -> W -> list (Caller * Event) :=
  fix second (q : Prog B) (sched : list Caller) (w : W) {struct q}
      : list (Caller * Event) :=
    match sched with
    | First :: rest =>
        match p with
        | Vis c k =>
            let r := h _ c w in
            (First, mkEvent _ c r.1) :: run_both h (k r.1) q rest r.2
        | _ => map (pair Second) (trace (run h q w))
        end
    | Second :: rest =>
        match q with
        | Vis c k =>
            let r := h _ c w in
            (Second, mkEvent _ c r.1) :: second (k r.1) rest r.2
        | _ => map (pair First) (trace (run h p w))
        end
    | [] =>
        map (pair First) (trace (run h p w)) ++
        map (pair Second) (trace (run h q (final (run h p w))))
    end.

(** The calls of one caller, in the order they were made. *)
Definition by_caller (who : Caller) (tr : list (Caller * Event)) : list Event :=
  omap (fun item => if same_caller item.1 who then Some item.2 else None) tr.

(** [tr] is a complete sequence of calls of [p], for some replies. *)
Fixpoint follows {A} (p : Prog A) (tr : list Event) : Prop :=
  match p, tr with
  | Ret _, [] => True
  | Throw _, [] => True
  | Vis c k, ev :: rest => exists x, ev = mkEvent _ c x /\ follows (k x) rest
  | _, _ => False
  end.

(** ** A wallet of another environment

    One process, configured for "env-1", creates a wallet; another process,
    configured for "env-2", is then given the wallet's address. *)
Definition created_elsewhere : Origins :=
  origins_after no_sessions ∅
    (trace (run (scripted friendly)
              (operation demo_env (OpCreateNewWallet (Some "my-secure-password"))) 0)).

Definition second_process : ProcessEnv :=
  {| DYNAMIC_ENVIRONMENT_ID := Some "env-2"; DYNAMIC_AUTH_TOKEN := Some "token-2" |}.

Definition foreign_signing : Event :=
  mkEvent _ (SignMessage 1
               {| sm_message := "Hello from wallet " +:+ w_accountAddress demo_wallet +:+
                                " at 2025-01-01T00:00:00.000Z";
                  sm_accountAddress := w_accountAddress demo_wallet;
                  sm_password := "my-secure-password" |})
          (inr ("sig:Hello from wallet " +:+ w_accountAddress demo_wallet +:+
                " at 2025-01-01T00:00:00.000Z")).

(** ** Counting and ordering calls *)

(** How many calls of a run satisfy [P]. *)
Definition calls (P : forall X, Call X -> bool) (tr : list Event) : nat :=
  length (filter (fun ev => P _ (ev_call ev) = true) tr).

(** Every complete path of the program issues at most [n] calls that
    satisfy [P]. *)
Fixpoint AtMost {A} (P : forall X, Call X -> bool) (n : nat) (p : Prog A) : Prop :=
  match p with
  | Ret _ => True
  | Throw _ => True
  | Vis c k =>
      if P _ c
      then match n with
           | S m => forall x, AtMost P m (k x)
           | O => False
           end
      else forall x, AtMost P n (k x)
  end.

(** Every complete path of the program issues exactly [n] calls that
    satisfy [P]. *)
Fixpoint Exactly {A} (P : forall X, Call X -> bool) (n : nat) (p : Prog A) : Prop :=
  match p with
  | Ret _ => n = 0
  | Throw _ => n = 0
  | Vis c k =>
      if P _ c
      then match n with
           | S m => forall x, Exactly P m (k x)
           | O => False
           end
      else forall x, Exactly P n (k x)
  end.

Definition is_balance {X} (c : Call X) : bool :=
  match c with GetBalance _ _ => true | _ => false end.

Definition is_prepare {X} (c : Call X) : bool :=
  match c with PrepareTransactionRequest _ _ => true | _ => false end.

Definition is_token_check {X} (c : Call X) : bool :=
  match c with AuthenticateApiToken _ _ => true | _ => false end.

Definition is_public_client {X} (c : Call X) : bool :=
  match c with CreateViemPublicClient _ _ => true | _ => false end.

Definition is_import_of (module : string) {X} (c : Call X) : bool :=
  match c with Import m => String.eqb m module | _ => false end.

(** The step of [performWalletOperations] a call belongs to, for the calls
    that only one step makes: 1 for the balance check, 2 for signing and
    verifying, 3 for the preparation. *)
Definition phase {X} (c : Call X) : option nat :=
  match c with
  | GetBalance _ _ => Some 1
  | DateNowISO => Some 2
  | SignMessage _ _ => Some 2
  | VerifyMessageSignature _ _ => Some 2
  | Import m => if String.eqb m "viem/utils" then Some 3 else None
  | PrepareTransactionRequest _ _ => Some 3
  | _ => None
  end.

(** The steps never go backwards along the trace. *)
Fixpoint phases_ordered (current : nat) (tr : list Event) : bool :=
  match tr with
  | [] => true
  | ev :: rest =>
      match phase (ev_call ev) with
      | Some n => (current <=? n) && phases_ordered n rest
      | None => phases_ordered current rest
      end
  end.

Fixpoint Phased {A} (current : nat) (p : Prog A) : Prop :=
  match p with
  | Ret _ => True
  | Throw _ => True
  | Vis c k =>
      match phase c with
      | Some n => current <= n /\ forall x, Phased n (k x)
      | None => forall x, Phased current (k x)
      end
  end.

(** The reply accepts the token of the client. *)
Definition token_accepted {X} (c : Call X) : X -> bool :=
  match c in Call X return X -> bool with
  | AuthenticateApiToken _ _ => fun r => match r with inr _ => true | inl _ => false end
  | _ => fun _ => false
  end.

Definition accepted_token (ev : Event) : bool := token_accepted (ev_call ev) (ev_reply ev).

(** The run got an authenticated client. *)
Definition authenticated_run (tr : list Event) : bool := existsb accepted_token tr.

(** On every complete path, the calls that satisfy [P] number [n] if a token
    was accepted on the path and none otherwise ([seen] and [count] are the
    flag and the number before the program starts). *)
Fixpoint Tally {A} (P : forall X, Call X -> bool) (n : nat) (seen : bool) (count : nat)
    (p : Prog A) : Prop :=
  match p with
  | Ret _ => count = (if seen then n else 0)
  | Throw _ => count = (if seen then n else 0)
  | Vis c k =>
      forall x,
        Tally P n (seen || token_accepted c x) (count + (if P _ c then 1 else 0)) (k x)
  end.

(** ** What a call is about *)

(** The answer of [verifyMessageSignature], when it answered. *)
Definition verified (ev : Event) : option bool :=
  match ev_call ev in Call X return X -> option bool with
  | VerifyMessageSignature _ _ =>
      fun r => match r with inr b => Some b | inl _ => None end
  | _ => fun _ => None
  end (ev_reply ev).

(** The balance the chain client answered with. *)
Definition balance_read (ev : Event) : option (string * Z) :=
  match ev_call ev in Call X return X -> option (string * Z) with
  | GetBalance _ address =>
      fun r => match r with inr balance => Some (address, balance) | inl _ => None end
  | _ => fun _ => None
  end (ev_reply ev).

(** The client handle a construction answered with. *)
Definition constructed_client (ev : Event) : option Client :=
  match ev_call ev in Call X return X -> option Client with
  | NewDynamicEvmWalletClient _ =>
      fun r => match r with inr cl => Some cl | inl _ => None end
  | _ => fun _ => None
  end (ev_reply ev).

(** The wallet address an operation is given, if it is given one. *)
Definition target (op : Operation) : option string :=
  match op with
  | OpInitializeExistingWallet walletAddress => Some walletAddress
  | OpPerformWalletOperations walletAddress _ => Some walletAddress
  | OpCreateNewWallet _ | OpDemonstrateSecurity | OpMain => None
  end.

(** A call that names a wallet address names [address]; a public client is
    always created for Base through the public RPC endpoint; only the three
    viem modules are loaded. *)
Definition well_aimed (address : option string) (X : Type) (c : Call X) : Prop :=
  match c with
  | CreateViemPublicClient _ cfg =>
      cfg = {| pc_chain := base; pc_rpcUrl := "https://mainnet.base.org" |}
  | Import m => m = "viem" \/ m = "viem/chains" \/ m = "viem/utils"
  | GetBalance _ a => address = Some a
  | PrepareTransactionRequest _ req =>
      address = Some (tx_account req) /\ tx_to req = null_address /\
      tx_value req = parseEther_0_001 /\ tx_chain req = base
  | VerifyMessageSignature _ args => address = Some (vm_accountAddress args)
  | SignMessage _ args =>
      match address with
      | Some a => sm_accountAddress args = a
      | None => sm_accountAddress args = Index.randomWalletAddress
      end
  | _ => True
  end.

(** ** Credentials and the console *)

(** A call with the configured environment and token blanked. *)
Definition redact {X} (c : Call X) : Call X :=
  match c in Call X return Call X with
  | NewDynamicEvmWalletClient _ =>
      NewDynamicEvmWalletClient {| cfg_authToken := None; cfg_environmentId := None |}
  | AuthenticateApiToken cl _ => AuthenticateApiToken cl None
  | c' => c'
  end.

(** Two programs that issue the same calls up to the credentials, whatever
    the replies, and end the same way. *)
Inductive Similar {A : Type} : Prog A -> Prog A -> Prop :=
| Similar_Ret (a : A) : Similar (Ret a) (Ret a)
| Similar_Throw (e : Thrown) : Similar (Throw e) (Throw e)
| Similar_Vis (X : Type) (c1 c2 : Call X) (k1 k2 : X -> Prog A) :
    redact c1 = redact c2 ->
    (forall x, Similar (k1 x) (k2 x)) ->
    Similar (Vis c1 k1) (Vis c2 k2).

(** Two environments that answer alike calls that differ in the credentials
    only, in worlds related by [R]. *)
Definition answers_alike {W1 W2} (R : W1 -> W2 -> Prop)
    (h1 : Handler W1) (h2 : Handler W2) : Prop :=
  forall X (c1 c2 : Call X) w1 w2,
    redact c1 = redact c2 -> R w1 w2 ->
    (h1 X c1 w1).1 = (h2 X c2 w2).1 /\ R (h1 X c1 w1).2 (h2 X c2 w2).2.

Definition other_env : ProcessEnv :=
  {| DYNAMIC_ENVIRONMENT_ID := Some "env-2"; DYNAMIC_AUTH_TOKEN := Some "token-2" |}.

(** An SDK that refuses the token. *)
Definition bad_token : Thrown := ErrorObject "InvalidCredential" "token rejected".

Definition locked_out : Sdk :=
  {| sdk_authenticate := fun _ => inl bad_token;
     sdk_create := fun _ => ([], inr demo_wallet);
     sdk_sign := fun args => inr ("sig:" +:+ sm_message args);
     sdk_verify := fun _ => inr true;
     sdk_balance := fun _ => inr 0%Z;
     sdk_prepare := fun _ => inl (ErrorObject "ChainUnavailable" "rpc down") |}.

(** The two verdicts of [demonstrateSecurity]. *)
Definition security_working : Level * list LogArg :=
  (LLog, [Str "✅ Security working! Cannot access unauthorized wallet:"]).

Definition should_not_work : Level * list LogArg :=
  (LLog, [Str "❌ This should not work!"]).

(** The signing and the verification of ["0xabc"] on the friendly SDK. *)
Definition friendly_message : string :=
  "Hello from wallet 0xabc at 2025-01-01T00:00:00.000Z".

Definition friendly_verify_args : VerifyMessageSignatureArgs :=
  {| vm_accountAddress := "0xabc";
     vm_message := friendly_message;
     vm_signature := "sig:" +:+ friendly_message |}.

Definition friendly_verify_event : Event :=
  mkEvent _ (VerifyMessageSignature 0 friendly_verify_args) (inr true).

Definition friendly_balance_event : Event :=
  mkEvent _ (GetBalance 0 "0xabc") (inr 0%Z).

(** * Properties

    ** Programs compose *)

Section Composition.

Context {A B : Type}.

Lemma AllCalls_bind P (p : Prog A) (f : A -> Prog B) :
  AllCalls P p -> (forall a, AllCalls P (f a)) -> AllCalls P (bind p f).
Proof.
  intros Hp Hf. induction p as [a|e|X c k IH]; simpl in *; auto.
  destruct Hp as [Hc Hk]. split; auto.
Qed.

Lemma AllCalls_try_catch P (p : Prog A) (h : Thrown -> Prog A) :
  AllCalls P p -> (forall e, AllCalls P (h e)) -> AllCalls P (try_catch p h).
Proof.
  intros Hp Hh. induction p as [a|e|X c k IH]; simpl in *; auto.
  destruct Hp as [Hc Hk]. split; auto.
Qed.

Lemma AllCalls_weaken (P Q : forall X, Call X -> Prop) (p : Prog A) :
  (forall X (c : Call X), P X c -> Q X c) -> AllCalls P p -> AllCalls Q p.
Proof.
  intros HPQ. induction p as [a|e|X c k IH]; simpl; auto.
  intros [Hc Hk]. split; auto.
Qed.

Lemma NoThrow_bind (p : Prog A) (f : A -> Prog B) :
  NoThrow p -> (forall a, NoThrow (f a)) -> NoThrow (bind p f).
Proof.
  intros Hp Hf. induction p as [a|e|X c k IH]; simpl in *; auto.
Qed.

Lemma NoThrow_try_catch (p : Prog A) (h : Thrown -> Prog A) :
  (forall e, NoThrow (h e)) -> NoThrow (try_catch p h).
Proof.
  intros Hh. induction p as [a|e|X c k IH]; simpl in *; auto.
Qed.

End Composition.

Lemma AllCalls_for_each {X} P (xs : list X) (body : X -> Prog unit) :
  (forall x, AllCalls P (body x)) -> AllCalls P (for_each xs body).
Proof.
  intros Hb. induction xs as [|x xs IH]; simpl; auto.
  apply AllCalls_bind; auto.
Qed.

Lemma NoThrow_for_each {X} (xs : list X) (body : X -> Prog unit) :
  (forall x, NoThrow (body x)) -> NoThrow (for_each xs body).
Proof.
  intros Hb. induction xs as [|x xs IH]; simpl; auto.
  apply NoThrow_bind; auto.
Qed.

(** *** From programs to runs *)

Section Runs.

Context {W : Type} (h : Handler W).

Lemma run_bind {A B} (p : Prog A) (f : A -> Prog B) w :
  run h (bind p f) w =
  match outcome (run h p w) with
  | Returned a =>
      let r2 := run h (f a) (final (run h p w)) in
      mkRun (trace (run h p w) ++ trace r2) (outcome r2) (final r2)
  | Raised e => mkRun (trace (run h p w)) (Raised e) (final (run h p w))
  end.
Proof.
  revert w. induction p as [a|e|X c k IH]; intros w; simpl.
  - destruct (run h (f a) w); reflexivity.
  - reflexivity.
  - rewrite IH.
    destruct (outcome (run h (k (h X c w).1) (h X c w).2)) eqn:Ho;
      simpl; rewrite ?Ho; reflexivity.
Qed.

Lemma run_try_catch {A} (p : Prog A) (hd : Thrown -> Prog A) w :
  run h (try_catch p hd) w =
  match outcome (run h p w) with
  | Returned a => run h p w
  | Raised e =>
      let r2 := run h (hd e) (final (run h p w)) in
      mkRun (trace (run h p w) ++ trace r2) (outcome r2) (final r2)
  end.
Proof.
  revert w. induction p as [a|e|X c k IH]; intros w; simpl.
  - reflexivity.
  - destruct (run h (hd e) w); reflexivity.
  - rewrite IH.
    destruct (outcome (run h (k (h X c w).1) (h X c w).2)) eqn:Ho;
      simpl; rewrite ?Ho; reflexivity.
Qed.

Lemma AllCalls_run {A} P (p : Prog A) w :
  AllCalls P p -> Forall (fun ev => P _ (ev_call ev)) (trace (run h p w)).
Proof.
  revert w. induction p as [a|e|X c k IH]; intros w Hp; simpl.
  - constructor.
  - constructor.
  - destruct Hp as [Hc Hk]. constructor; [exact Hc | apply IH, Hk].
Qed.

Lemma NoThrow_run {A} (p : Prog A) w :
  NoThrow p -> exists a, outcome (run h p w) = Returned a.
Proof.
  revert w. induction p as [a|e|X c k IH]; intros w Hp; simpl.
  - eauto.
  - destruct Hp.
  - apply IH, Hp.
Qed.

End Runs.

Lemma or_else_spec (pw : option string) (d : string) :
  or_else pw d =
  match pw with
  | None => d
  | Some s => if String.eqb s EmptyString then d else s
  end.
Proof. destruct pw as [[|a s]|]; reflexivity. Qed.

Lemma or_else_nonempty (pw : option string) (d : string) :
  d <> EmptyString -> or_else pw d <> EmptyString.
Proof. destruct pw as [[|a s]|]; simpl; congruence. Qed.

Ltac all_calls :=
  prog_unfold; simpl;
  repeat match goal with
  | |- True => exact I
  | |- _ /\ _ => split
  | |- forall _ : _ + _, _ => intros [?|?]; simpl
  | |- forall _ : _ * _, _ => intros [? ?]; simpl
  | |- forall _, _ => intro; simpl
  | |- AllCalls _ (try_catch _ _) => apply AllCalls_try_catch; simpl
  | |- AllCalls _ (bind _ _) => apply AllCalls_bind; simpl
  | |- AllCalls _ (for_each _ _) => apply AllCalls_for_each; simpl
  | |- AllCalls _ (match ?x with _ => _ end) => destruct x; simpl
  end.

Lemma createNewWallet_calls penv pw :
  AllCalls (fixed_options pw) (Index.createNewWallet penv pw).
Proof.
  all_calls; simpl; auto using or_else_spec, or_else_nonempty.
Qed.

Lemma Quickstart_main_calls penv :
  AllCalls (fixed_options None) (Quickstart.main penv).
Proof. all_calls; simpl; auto; discriminate. Qed.

Lemma In_trace_call {W A} (h : Handler W) (p : Prog A) (w : W) P ev :
  AllCalls P p -> In ev (trace (run h p w)) -> P _ (ev_call ev).
Proof.
  intros Hp Hin. apply (AllCalls_run h _ p w) in Hp.
  rewrite Forall_forall in Hp. apply Hp. apply list_elem_of_In. exact Hin.
Qed.

(** ** Wallet creation options *)

(** C10: every [createWalletAccount] request that [createNewWallet] can issue
    asks for the 2-of-2 scheme with backup to the share service enabled and
    carries a non-empty password: the caller's one, or the fixed string
    "your-secure-password" when the caller gave none (or gave the empty
    string).  The quick-start script's [main] issues the same request with
    the default password.  No argument of [createNewWallet] influences the
    scheme or the backup flag. *)
Theorem createNewWallet_options_fixed :
  forall (penv : ProcessEnv) (pw : option string) (W : Type) (h : Handler W) (w : W)
         (ev : Event) (args : CreateWalletAccountArgs),
    create_args ev = Some args ->
    (In ev (trace (run h (Index.createNewWallet penv pw) w)) ->
       thresholdSignatureScheme args = TWO_OF_TWO /\
       backUpToClientShareService args = true /\
       password args <> EmptyString /\
       password args =
         match pw with
         | None => "your-secure-password"
         | Some s => if String.eqb s EmptyString then "your-secure-password" else s
         end) /\
    (In ev (trace (run h (Quickstart.main penv) w)) ->
       thresholdSignatureScheme args = TWO_OF_TWO /\
       backUpToClientShareService args = true /\
       password args = "your-secure-password").
Proof.
  intros penv pw W h w ev args Hargs. split; intros Hin.
  - pose proof (In_trace_call h _ w _ ev (createNewWallet_calls penv pw) Hin) as H.
    destruct ev as [X c r]. unfold create_args in Hargs. simpl in *.
    destruct c; try discriminate. injection Hargs as <-. exact H.
  - pose proof (In_trace_call h _ w _ ev (Quickstart_main_calls penv) Hin) as H.
    destruct ev as [X c r]. unfold create_args in Hargs. simpl in *.
    destruct c; try discriminate. injection Hargs as <-.
    destruct H as (H1 & H2 & _ & H4). auto.
Qed.

Lemma createNewWallet_options_fixed_witness :
  thresholdSignatureScheme
     {| thresholdSignatureScheme := TWO_OF_TWO;
        password := "your-secure-password";
        backUpToClientShareService := true |} = TWO_OF_TWO /\
  In (demo_create_event "your-secure-password")
     (trace (run (scripted friendly) (Index.createNewWallet demo_env (Some EmptyString)) 0)).
Proof.
  assert (Hin : In (demo_create_event "your-secure-password")
     (trace (run (scripted friendly) (Index.createNewWallet demo_env (Some EmptyString)) 0))).
  { vm_compute. right. right. left. reflexivity. }
  split; [|exact Hin].
  exact (proj1 (proj1 (createNewWallet_options_fixed demo_env (Some EmptyString)
                         nat (scripted friendly) 0 (demo_create_event "your-secure-password")
                         _ eq_refl) Hin)).
Defined.

(** ** Transaction preparation *)

Lemma prepareTransaction_calls evmClient walletAddress :
  AllCalls (fun X c =>
              preparation_call X c /\
              match c with
              | PrepareTransactionRequest _ req =>
                  req = {| tx_to := null_address; tx_value := parseEther_0_001;
                           tx_chain := base; tx_account := walletAddress |}
              | _ => True
              end)
    (Index.prepareTransaction evmClient walletAddress).
Proof. all_calls; simpl; auto; reflexivity. Qed.

Lemma run_reply_independent {W A} (h : Handler W) (P : forall X, Call X -> Prop) (p : Prog A) :
  AllCalls P p ->
  (forall X (c : Call X) w w', P X c -> (h X c w).1 = (h X c w').1) ->
  forall w w', trace (run h p w) = trace (run h p w') /\
               outcome (run h p w) = outcome (run h p w').
Proof.
  intros Hp Hh. induction p as [a|e|X c k IH]; intros w w'; simpl; auto.
  destruct Hp as [Hc Hk].
  rewrite (Hh X c w w' Hc).
  destruct (IH (h X c w').1 (Hk _) (h X c w).2 (h X c w').2) as [-> ->].
  auto.
Qed.

(** C8: [prepareTransaction] only loads modules, reads from the chain client
    and writes to the console: it issues no signing, verification, account
    creation or authentication call, so it cannot touch account or share
    state and never involves the signing coordinator.  Every request it sends
    to the chain client has the same [to] (the null address) and [value]
    (0.001 ether) and the caller's address as account.  Run twice with the
    same inputs while the chain client answers its reads the same way, it
    makes the same calls, obtains the same prepared transaction and prints
    the same summary. *)
Theorem prepareTransaction_idempotent_no_signing :
  forall (evmClient : Client) (walletAddress : string) (W : Type) (h : Handler W) (w w' : W),
    Forall (fun ev =>
              is_sign (ev_call ev) = false /\ is_verify (ev_call ev) = false /\
              is_create (ev_call ev) = false /\ is_authenticate (ev_call ev) = false /\
              (is_chain_read (ev_call ev) || is_console (ev_call ev)) = true)
           (trace (run h (Index.prepareTransaction evmClient walletAddress) w)) /\
    Forall (fun ev =>
              match prepare_request ev with
              | Some req =>
                  tx_to req = null_address /\
                  tx_value req = parseEther_0_001 /\
                  tx_account req = walletAddress
              | None => True
              end)
           (trace (run h (Index.prepareTransaction evmClient walletAddress) w)) /\
    (chain_unchanged h ->
       trace (run h (Index.prepareTransaction evmClient walletAddress) w) =
       trace (run h (Index.prepareTransaction evmClient walletAddress) w') /\
       prepared (trace (run h (Index.prepareTransaction evmClient walletAddress) w)) =
       prepared (trace (run h (Index.prepareTransaction evmClient walletAddress) w')) /\
       printed_transactions (trace (run h (Index.prepareTransaction evmClient walletAddress) w)) =
       printed_transactions (trace (run h (Index.prepareTransaction evmClient walletAddress) w'))).
Proof.
  intros evmClient walletAddress W h w w'.
  pose proof (prepareTransaction_calls evmClient walletAddress) as Hcalls.
  split; [|split].
  - eapply Forall_impl; [apply (AllCalls_run h _ _ w Hcalls)|].
    intros [X c r] [Hp _]. unfold preparation_call in Hp. simpl in *.
    destruct c; simpl in *; auto; discriminate.
  - eapply Forall_impl; [apply (AllCalls_run h _ _ w Hcalls)|].
    intros [X c r] [_ Hreq]. unfold prepare_request. simpl in *.
    destruct c; auto. subst req. simpl. auto.
  - intros Hstable.
    assert (Heq : trace (run h (Index.prepareTransaction evmClient walletAddress) w) =
                  trace (run h (Index.prepareTransaction evmClient walletAddress) w')).
    { eapply (run_reply_independent h); [exact Hcalls|].
      intros X c w1 w2 [Hp _]. apply Hstable, Hp. }
    rewrite Heq. auto.
Qed.

Lemma scripted_chain_unchanged (s : Sdk) : chain_unchanged (scripted s).
Proof.
  intros X c w w' Hc. unfold preparation_call in Hc.
  destruct c; simpl in *; try discriminate; try reflexivity.
Qed.

Lemma prepareTransaction_idempotent_no_signing_witness :
  chain_unchanged (scripted friendly) /\
  printed_transactions
    (trace (run (scripted friendly) (Index.prepareTransaction 0 "0xabc") 0)) =
  printed_transactions
    (trace (run (scripted friendly) (Index.prepareTransaction 0 "0xabc") 7)).
Proof.
  split; [apply scripted_chain_unchanged|].
  exact (proj2 (proj2 (proj2 (proj2
           (prepareTransaction_idempotent_no_signing 0 "0xabc" nat (scripted friendly) 0 7))
           (scripted_chain_unchanged friendly)))).
Defined.

(** ** Sessions *)

Lemma Disciplined_run {W A} (h : Handler W) env (p : Prog A) :
  forall s w, Disciplined env s p -> disciplined env s (trace (run h p w)) = true.
Proof.
  induction p as [a|e|X c k IH]; intros s w Hp; simpl; auto.
  destruct Hp as [Hc Hk]. rewrite Hc. simpl. apply IH, Hk.
Qed.

Lemma establish_steady {X} (c : Call X) (x : X) s :
  is_authenticate c = false -> establish c x s = s.
Proof. destruct c; simpl; intros; try discriminate; reflexivity. Qed.

(** A program that performs no authentication step of its own respects the
    discipline as soon as the clients it uses hold a session. *)
Lemma Disciplined_steady {A} env s (ok : Client -> Prop) (p : Prog A) :
  (forall cl, ok cl -> authenticated s !! cl = Some env) ->
  AllCalls (fun X c => is_authenticate c = false /\
                       forall cl, session_of c = Some cl -> ok cl) p ->
  Disciplined env s p.
Proof.
  intros Hok. induction p as [a|e|X c k IH]; simpl; auto.
  intros [[Hna Huse] Hk]. split.
  - unfold presents_session. destruct (session_of c) as [cl|] eqn:Hcl; [|reflexivity].
    apply bool_decide_eq_true. apply Hok, Huse. reflexivity.
  - intros x. rewrite establish_steady by exact Hna. apply IH, Hk.
Qed.

Lemma Constructs_run {W A} (h : Handler W) (p : Prog A) :
  forall n w, Constructs n p -> clients_constructed (trace (run h p w)) = n.
Proof.
  unfold clients_constructed.
  induction p as [a|e|X c k IH]; intros n w Hp; simpl in *; auto.
  rewrite filter_cons. simpl.
  destruct (is_new_client c) eqn:Hc.
  - destruct n as [|m]; [destruct Hp|].
    rewrite decide_True by reflexivity. simpl. f_equal. apply IH, Hp.
  - rewrite decide_False by discriminate. apply IH, Hp.
Qed.

Lemma Constructs_none {A} (p : Prog A) :
  AllCalls (fun X c => is_new_client c = false) p -> Constructs 0 p.
Proof.
  induction p as [a|e|X c k IH]; simpl; auto.
  intros [Hc Hk]. rewrite Hc. intros x. apply IH, Hk.
Qed.

Lemma Disciplined_bind_ret {A B} env (p : Prog A) (b : B) :
  forall s, Disciplined env s p -> Disciplined env s (bind p (fun _ => Ret b)).
Proof.
  induction p as [a|e|X c k IH]; intros s; simpl; auto.
  intros [Hc Hk]. split; auto.
Qed.

(** The shape shared by all operations: authenticate a fresh client, work on
    it, and handle whatever was thrown without touching any client. *)
Lemma Disciplined_session_scope {A} penv (rest : Client -> Prog A) (hd : Thrown -> Prog A) :
  (forall cl, AllCalls (fun X c => is_authenticate c = false /\
                                   forall cl', session_of c = Some cl' -> cl' = cl) (rest cl)) ->
  (forall e, AllCalls (fun X c => is_authenticate c = false /\
                                  forall cl', session_of c = Some cl' -> False) (hd e)) ->
  Disciplined (DYNAMIC_ENVIRONMENT_ID penv) no_sessions
    (try_catch (bind (Index.authenticatedEvmClient penv) rest) hd).
Proof.
  intros Hrest Hhd.
  assert (Hquiet : forall s e, Disciplined (DYNAMIC_ENVIRONMENT_ID penv) s (hd e)).
  { intros s e. apply (Disciplined_steady _ s (fun _ => False)); [tauto|apply Hhd]. }
  prog_unfold. simpl.
  split; [reflexivity|]. intros [e|cl]; simpl; [apply Hquiet|].
  split; [reflexivity|]. intros [e|[]]; simpl; [apply Hquiet|].
  rewrite lookup_insert_eq. simpl.
  apply (Disciplined_steady _ _ (fun cl' => cl' = cl)).
  - simpl. intros ? ->. apply lookup_insert_eq.
  - apply AllCalls_try_catch; [apply Hrest|].
    intros e. eapply AllCalls_weaken; [|apply Hhd].
    simpl. intros X c [H1 H2]. split; [exact H1|]. intros cl' Hcl'. destruct (H2 _ Hcl').
Qed.

Ltac session_calls :=
  all_calls; simpl;
  repeat match goal with
  | |- _ = _ => reflexivity
  | H : Some _ = Some _ |- _ => injection H as <-
  | H : None = Some _ |- _ => discriminate H
  | H : Some _ = None |- _ => discriminate H
  | |- forall _, _ => intro
  end; auto.

Lemma Disciplined_bind_quiet {A B} env (p : Prog A) (f : A -> Prog B) :
  (forall a, AllCalls (fun X c => is_authenticate c = false /\
                                  forall cl', session_of c = Some cl' -> False) (f a)) ->
  forall s, Disciplined env s p -> Disciplined env s (bind p f).
Proof.
  intros Hf. induction p as [a|e|X c k IH]; intros s; simpl; auto.
  - intros _. apply (Disciplined_steady _ s (fun _ => False)); [tauto|apply Hf].
  - intros [Hc Hk]. split; auto.
Qed.

Lemma Disciplined_try_catch_quiet {A} env (p : Prog A) (hd : Thrown -> Prog A) :
  (forall e, AllCalls (fun X c => is_authenticate c = false /\
                                  forall cl', session_of c = Some cl' -> False) (hd e)) ->
  forall s, Disciplined env s p -> Disciplined env s (try_catch p hd).
Proof.
  intros Hh. induction p as [a|e|X c k IH]; intros s; simpl; auto.
  - intros _. apply (Disciplined_steady _ s (fun _ => False)); [tauto|apply Hh].
  - intros [Hc Hk]. split; auto.
Qed.

Lemma createNewWallet_disciplined penv password :
  Disciplined (DYNAMIC_ENVIRONMENT_ID penv) no_sessions (Index.createNewWallet penv password).
Proof.
  unfold Index.createNewWallet.
  apply Disciplined_session_scope; intros; session_calls.
Qed.

Lemma operation_disciplined penv op :
  Disciplined (DYNAMIC_ENVIRONMENT_ID penv) no_sessions (operation penv op).
Proof.
  destruct op; unfold operation.
  - apply (Disciplined_bind_ret (A:=WalletInfo)), createNewWallet_disciplined.
  - apply (Disciplined_bind_ret (A:=Client * string)).
    unfold Index.initializeExistingWallet.
    apply Disciplined_session_scope; intros; session_calls.
  - unfold Index.performWalletOperations.
    split; [reflexivity|]. intros [].
    apply Disciplined_session_scope; intros; session_calls.
  - unfold Index.demonstrateSecurity.
    split; [reflexivity|]. intros [].
    apply Disciplined_session_scope; intros; session_calls.
  - unfold Index.main, mbind, prog_bind, console_log, perform.
    cbn [bind try_catch].
    split; [reflexivity|]. intros [].
    split; [reflexivity|]. intros [].
    cbn [bind establish].
    apply Disciplined_try_catch_quiet; [intros; session_calls|].
    apply Disciplined_bind_quiet; [intros; session_calls|].
    apply createNewWallet_disciplined.
Qed.

Lemma Quickstart_main_disciplined penv :
  Disciplined (DYNAMIC_ENVIRONMENT_ID penv) no_sessions (Quickstart.main penv).
Proof.
  unfold Quickstart.main.
  assert (Hquiet : forall s e,
             Disciplined (DYNAMIC_ENVIRONMENT_ID penv) s
               (console_error [Str "Error:"; Err e])).
  { intros s e. split; [reflexivity|]. intros []. exact I. }
  prog_unfold. simpl.
  split; [reflexivity|]. intros [e|cl]; simpl; [apply Hquiet|].
  split; [reflexivity|]. intros [e|[]]; simpl; [apply Hquiet|].
  rewrite lookup_insert_eq. simpl.
  split.
  { unfold presents_session. simpl. apply bool_decide_eq_true, lookup_insert_eq. }
  intros [reported settled]. simpl.
  apply (Disciplined_steady _ _ (fun cl' => cl' = cl)).
  - simpl. intros ? ->. apply lookup_insert_eq.
  - apply AllCalls_try_catch; [|intros; session_calls].
    apply AllCalls_bind; [|intros; session_calls].
    apply AllCalls_bind; [apply AllCalls_for_each; intros; session_calls|].
    intros _. destruct settled; session_calls.
Qed.

Lemma Constructs_bind_ret {A B} n (p : Prog A) (b : B) :
  Constructs n p -> Constructs n (bind p (fun _ => Ret b)).
Proof.
  revert n. induction p as [a|e|X c k IH]; intros n; simpl; auto.
  destruct (is_new_client c); [destruct n as [|m]|]; auto.
Qed.

Lemma Constructs_session_scope {A} penv (rest : Client -> Prog A) (hd : Thrown -> Prog A) :
  (forall cl, AllCalls (fun X c => is_new_client c = false) (rest cl)) ->
  (forall e, AllCalls (fun X c => is_new_client c = false) (hd e)) ->
  Constructs 1 (try_catch (bind (Index.authenticatedEvmClient penv) rest) hd).
Proof.
  intros Hrest Hhd. prog_unfold. simpl.
  intros [e|cl]; simpl; [apply Constructs_none, Hhd|].
  intros [e|[]]; simpl; [apply Constructs_none, Hhd|].
  apply Constructs_none, AllCalls_try_catch; auto.
Qed.

Lemma createNewWallet_constructs penv password :
  Constructs 1 (Index.createNewWallet penv password).
Proof.
  unfold Index.createNewWallet.
  apply Constructs_session_scope; intros; all_calls; reflexivity.
Qed.

Lemma Constructs_bind_none {A B} n (p : Prog A) (f : A -> Prog B) :
  (forall a, AllCalls (fun X c => is_new_client c = false) (f a)) ->
  Constructs n p -> n <> 0 -> Constructs n (bind p f).
Proof.
  intros Hf. revert n. induction p as [a|e|X c k IH]; intros n; simpl.
  - intros ->. congruence.
  - auto.
  - destruct (is_new_client c).
    + destruct n as [|m]; [tauto|]. intros Hk _ x.
      specialize (Hk x). clear IH.
      revert Hk. generalize (k x). intros q. revert m.
      induction q as [a|e|Y d kq IHq]; intros m; simpl.
      * intros ->. apply Constructs_none, Hf.
      * auto.
      * destruct (is_new_client d); [destruct m|]; auto.
    + intros Hk Hn x. apply IH; auto.
Qed.

Lemma Constructs_try_catch_none {A} n (p : Prog A) (hd : Thrown -> Prog A) :
  (forall e, AllCalls (fun X c => is_new_client c = false) (hd e)) ->
  Constructs n p -> Constructs n (try_catch p hd).
Proof.
  intros Hh. revert n. induction p as [a|e|X c k IH]; intros n; simpl; auto.
  - intros ->. apply Constructs_none, Hh.
  - destruct (is_new_client c); [destruct n as [|m]|]; auto.
Qed.

Lemma operation_constructs penv op : Constructs 1 (operation penv op).
Proof.
  destruct op; unfold operation.
  - apply (Constructs_bind_ret (A:=WalletInfo)), createNewWallet_constructs.
  - apply (Constructs_bind_ret (A:=Client * string)).
    unfold Index.initializeExistingWallet.
    apply Constructs_session_scope; intros; all_calls; reflexivity.
  - unfold Index.performWalletOperations.
    intros []. apply Constructs_session_scope; intros; all_calls; reflexivity.
  - unfold Index.demonstrateSecurity.
    intros []. apply Constructs_session_scope; intros; all_calls; reflexivity.
  - unfold Index.main, mbind, prog_bind, console_log, perform.
    cbn [bind try_catch]. intros []. intros []. cbn [bind].
    apply Constructs_try_catch_none; [intros; all_calls; reflexivity|].
    apply Constructs_bind_none; [intros; all_calls; reflexivity| |discriminate].
    apply createNewWallet_constructs.
Qed.

Lemma operation_credentials penv op :
  AllCalls (uses_process_credentials penv) (operation penv op).
Proof.
  destruct op; unfold operation; all_calls; simpl; auto.
Qed.

(** *** Sessions and the environment of the account *)

Lemma disciplined_scoped env :
  forall tr s o,
    disciplined env s tr = true -> created_in env o ->
    scoped s o tr = true /\ created_in env (origins_after s o tr).
Proof.
  induction tr as [|[X c r] tr IH]; intros s o Hd Ho; simpl in *; [auto|].
  apply andb_prop in Hd. destruct Hd as [Hc Hd].
  assert (Hscope : in_scope s o c = true).
  { unfold in_scope, presents_session in *.
    destruct c; simpl in *; try reflexivity;
      apply bool_decide_eq_true in Hc; rewrite Hc;
      match goal with
      | |- match ?o !! ?a with _ => _ end = true =>
          destruct (o !! a) as [origin|] eqn:Ha; [|reflexivity];
          apply bool_decide_eq_true; symmetry; exact (Ho _ _ Ha)
      end. }
  rewrite Hscope. simpl. apply IH; [exact Hd|].
  destruct c; simpl; try exact Ho.
  unfold presents_session in Hc. simpl in Hc. apply bool_decide_eq_true in Hc.
  rewrite Hc. destruct r as [reported [e|wallet]]; simpl; [exact Ho|].
  intros address origin Ha. apply lookup_insert_Some in Ha.
  destruct Ha as [[_ <-]|[_ Ha]]; [reflexivity|exact (Ho _ _ Ha)].
Qed.

Lemma scoped_mismatch env origin address :
  origin <> env ->
  forall tr s o,
    disciplined env s tr = true ->
    o !! address = Some origin ->
    Forall (fun ev => is_create (ev_call ev) = false) tr ->
    (exists ev cl, In ev tr /\ account_of (ev_call ev) = Some (cl, address)) ->
    scoped s o tr = false.
Proof.
  intros Hne. induction tr as [|[X c r] tr IH]; intros s o Hd Ho Hnc (ev & cl & Hin & Hacc).
  - destruct Hin.
  - simpl in *. apply andb_prop in Hd. destruct Hd as [Hc Hd].
    apply Forall_cons in Hnc. destruct Hnc as [Hc0 Hnc]. simpl in Hc0.
    destruct Hin as [<-|Hin].
    + simpl in Hacc. unfold in_scope. rewrite Hacc.
      unfold presents_session in Hc.
      assert (Hs : session_of c = Some cl) by (destruct c; simpl in *; congruence).
      rewrite Hs in Hc. apply bool_decide_eq_true in Hc. rewrite Hc, Ho.
      rewrite bool_decide_eq_false_2 by congruence. reflexivity.
    + rewrite (IH (establish c r s) (originate s c r o));
        [apply andb_false_r|exact Hd| |exact Hnc|eauto].
      destruct c; simpl in *; try exact Ho. discriminate Hc0.
Qed.

(** An operation that creates a wallet does not sign or verify, and an
    operation that signs or verifies creates no wallet. *)
Lemma operation_accounts penv op :
  AllCalls (fun X c => is_create c = false) (operation penv op) \/
  AllCalls (fun X c => account_of c = None) (operation penv op).
Proof.
  destruct op; unfold operation;
    first [ left; all_calls; reflexivity | right; all_calls; reflexivity ].
Qed.

Lemma operation_scope_mismatch {W} (h : Handler W) penv op w (o : Origins)
    ev cl address origin :
  In ev (trace (run h (operation penv op) w)) ->
  account_of (ev_call ev) = Some (cl, address) ->
  o !! address = Some origin ->
  origin <> DYNAMIC_ENVIRONMENT_ID penv ->
  scoped no_sessions o (trace (run h (operation penv op) w)) = false.
Proof.
  intros Hin Hacc Ho Hne.
  destruct (operation_accounts penv op) as [Hnc|Hna].
  - apply (scoped_mismatch (DYNAMIC_ENVIRONMENT_ID penv) origin address Hne).
    + apply Disciplined_run, operation_disciplined.
    + exact Ho.
    + apply (AllCalls_run h _ _ w Hnc).
    + eauto.
  - pose proof (In_trace_call h _ w _ ev Hna Hin) as Hnone. simpl in Hnone. congruence.
Qed.

(** *** The age of the session presented *)

Lemma Fresh_run {W A} (h : Handler W) limit (p : Prog A) :
  forall age w, Fresh limit age p -> fresh limit age (trace (run h p w)) = true.
Proof.
  induction p as [a|e|X c k IH]; intros age w Hp; simpl; auto.
  destruct Hp as [Hc Hk]. rewrite Hc. simpl. apply IH, Hk.
Qed.

Lemma Fresh_quiet {A} limit (p : Prog A) :
  AllCalls (fun X c => session_of c = None) p -> forall age, Fresh limit age p.
Proof.
  induction p as [a|e|X c k IH]; simpl; auto.
  intros [Hc Hk] age. split.
  - unfold young. rewrite Hc. reflexivity.
  - intros x. apply IH, Hk.
Qed.

Ltac fresh_calls :=
  prog_unfold; simpl;
  repeat match goal with
  | |- True => exact I
  | |- _ /\ _ => split
  | |- young _ _ _ = true => reflexivity
  | |- Fresh _ _ (try_catch _ _) => apply Fresh_quiet; all_calls; reflexivity
  | |- Fresh _ _ (bind _ _) => apply Fresh_quiet; all_calls; reflexivity
  | |- forall _ : _ + _, _ => intros [?|?]; simpl
  | |- forall _ : _ * _, _ => intros [? ?]; simpl
  | |- forall _, _ => intro; simpl
  end.

Lemma operation_fresh penv op : Fresh 15 None (operation penv op).
Proof. destruct op; unfold operation; fresh_calls. Qed.

Lemma Quickstart_main_fresh penv : Fresh 0 None (Quickstart.main penv).
Proof. unfold Quickstart.main. fresh_calls. Qed.

(** *** Callers that run together *)

Lemma follows_run {W A} (h : Handler W) (p : Prog A) :
  forall w, follows p (trace (run h p w)).
Proof.
  induction p as [a|e|X c k IH]; intros w; simpl; auto.
  eexists. split; [reflexivity|apply IH].
Qed.

Lemma by_caller_cons who other (ev : Event) (tr : list (Caller * Event)) :
  by_caller who ((other, ev) :: tr) =
  if same_caller other who then ev :: by_caller who tr else by_caller who tr.
Proof. unfold by_caller. simpl. destruct (same_caller other who); reflexivity. Qed.

Lemma by_caller_own who (tr : list Event) : by_caller who (map (pair who) tr) = tr.
Proof.
  induction tr as [|ev tr IH]; [reflexivity|].
  cbn [map]. rewrite by_caller_cons, IH. destruct who; reflexivity.
Qed.

Lemma by_caller_other who other (tr : list Event) :
  same_caller other who = false -> by_caller who (map (pair other) tr) = [].
Proof.
  intros Hne. induction tr as [|ev tr IH]; [reflexivity|].
  cbn [map]. rewrite by_caller_cons, Hne. exact IH.
Qed.

Lemma by_caller_app who (tr1 tr2 : list (Caller * Event)) :
  by_caller who (tr1 ++ tr2) = by_caller who tr1 ++ by_caller who tr2.
Proof. unfold by_caller. apply omap_app. Qed.

Lemma follows_first {W A B} (h : Handler W) (p : Prog A) :
  forall (q : Prog B) sched w, follows p (by_caller First (run_both h p q sched w)).
Proof.
  induction p as [a|e|X c k IHp]; intros q; induction q as [b|e'|Y d kq IHq];
    intros [|[|] rest] w; cbn [run_both];
    rewrite ?by_caller_cons, ?by_caller_app, ?by_caller_own, ?by_caller_other, ?app_nil_r
      by reflexivity;
    cbn [same_caller];
    try apply follows_run;
    try (simpl; exact I);
    try (eexists; split; [reflexivity|apply IHp]);
    try apply IHq.
Qed.

Lemma follows_second {W A B} (h : Handler W) (p : Prog A) :
  forall (q : Prog B) sched w, follows q (by_caller Second (run_both h p q sched w)).
Proof.
  induction p as [a|e|X c k IHp]; intros q; induction q as [b|e'|Y d kq IHq];
    intros [|[|] rest] w; cbn [run_both];
    rewrite ?by_caller_cons, ?by_caller_app, ?by_caller_own, ?by_caller_other
      by reflexivity;
    cbn [same_caller app];
    try apply follows_run;
    try (simpl; exact I);
    try (eexists; split; [reflexivity|apply IHq]);
    try apply IHp.
Qed.

Lemma Disciplined_follows {A} env (p : Prog A) :
  forall s tr, Disciplined env s p -> follows p tr -> disciplined env s tr = true.
Proof.
  induction p as [a|e|X c k IH]; intros s [|ev tr] Hp Hf; simpl in *;
    try reflexivity; try destruct Hf.
  destruct H as [-> Hf]. destruct Hp as [Hc Hk]. simpl. rewrite Hc. simpl.
  eapply IH; eauto.
Qed.

Lemma Constructs_follows {A} (p : Prog A) :
  forall n tr, Constructs n p -> follows p tr -> clients_constructed tr = n.
Proof.
  unfold clients_constructed.
  induction p as [a|e|X c k IH]; intros n [|ev tr] Hp Hf; simpl in *;
    try (symmetry; exact Hp); try destruct Hf.
  destruct H as [-> Hf]. rewrite filter_cons. simpl.
  destruct (is_new_client c) eqn:Hc.
  - destruct n as [|m]; [destruct Hp|].
    rewrite decide_True by reflexivity. simpl. f_equal. eapply IH; eauto.
  - rewrite decide_False by discriminate. eapply IH; eauto.
Qed.




(** ** Running the operations step by step *)

Ltac step_run h :=
  match goal with
  | |- context [h ?X ?c ?w] =>
      is_var w;
      let r := fresh "r" in
      let w' := fresh "w" in
      destruct (h X c w) as [r w'] eqn:?;
      try match type of r with
          | (_ + _)%type => destruct r as [?|?]
          end;
      simpl in *
  end.

Ltac run_all h := prog_unfold; simpl; repeat step_run h.

Ltac in_trace :=
  repeat match goal with
  | H : In _ [] |- _ => destruct H
  | H : In _ (_ :: _) |- _ => destruct H as [<-|H]
  | H : In _ (_ ++ _) |- _ => apply in_app_or in H; destruct H as [H|H]
  | H : _ = _ \/ _ |- _ => destruct H as [<-|H]
  | H : False |- _ => destruct H
  end.

(** ** Initialising an existing wallet *)

Lemma initializeExistingWallet_calls penv walletAddress :
  AllCalls (fun X c => is_create c = false /\ is_sign c = false /\ is_verify c = false)
    (Index.initializeExistingWallet penv walletAddress).
Proof. all_calls; reflexivity. Qed.

(** C6, as the script implements it: [initializeExistingWallet] authenticates
    a fresh client and then only asks the chain client for the balance of the
    address.  It never creates key material and never consults the key shares
    (no creation, signing or verification call).  It succeeds whenever no call
    is rejected, whoever controls the shares of the address.  A rejection of
    the client construction or of the authentication is rethrown unchanged; a
    rejection met while checking the balance is replaced by a generic [Error]
    whose message is "Wallet verification failed: " followed by the message
    of the cause ("Unknown error" if the cause is not an [Error]). *)
Theorem initializeExistingWallet_checks_balance_only :
  forall (penv : ProcessEnv) (walletAddress : string) (W : Type) (h : Handler W) (w : W),
    Forall (fun ev => is_create (ev_call ev) = false /\
                      is_sign (ev_call ev) = false /\
                      is_verify (ev_call ev) = false)
      (trace (run h (Index.initializeExistingWallet penv walletAddress) w)) /\
    (rejections (trace (run h (Index.initializeExistingWallet penv walletAddress) w)) = [] ->
       exists cl,
         outcome (run h (Index.initializeExistingWallet penv walletAddress) w) =
         Returned (cl, walletAddress)) /\
    (forall ev e0,
       In ev (trace (run h (Index.initializeExistingWallet penv walletAddress) w)) ->
       ev_rejected ev = Some e0 ->
       outcome (run h (Index.initializeExistingWallet penv walletAddress) w) =
       Raised (if is_authenticate (ev_call ev)
               then e0
               else new_Error ("Wallet verification failed: " +:+
                               message_or "Unknown error" e0))).
Proof.
  intros penv walletAddress W h w. split; [|split].
  - apply (AllCalls_run h _ _ w (initializeExistingWallet_calls penv walletAddress)).
  - run_all h; intros Hrej; try discriminate Hrej; eauto.
  - intros ev e0. run_all h; intros Hin Hrej; in_trace;
      unfold ev_rejected in Hrej; simpl in Hrej;
      try discriminate Hrej; try (injection Hrej as <-); reflexivity.
Qed.

(** ** How rejections travel through the wrappers *)

Lemma Surfaces_bind {A B} pending (p : Prog A) (f : A -> Prog B) :
  Surfaces pending p -> (forall a, Surfaces None (f a)) -> Surfaces pending (bind p f).
Proof.
  intros Hp Hf. revert pending Hp.
  induction p as [a|e|X c k IH]; simpl; auto.
  intros pending ->. apply Hf.
Qed.

Lemma Surfaces_bind_quiet {A B} pending (p : Prog A) (f : A -> Prog B) :
  AllCalls never_rejected p -> NoThrow p ->
  (forall a, Surfaces pending (f a)) -> Surfaces pending (bind p f).
Proof.
  intros Hq Hn Hf.
  induction p as [a|e|X c k IH]; simpl in *; auto.
  - destruct Hn.
  - destruct Hq as [Hc Hk]. intros x. rewrite (Hc x). auto.
Qed.

Lemma Surfaces_try_catch {A} pending (p : Prog A) (hd : Thrown -> Prog A) :
  Surfaces pending p -> (forall e, Surfaces (Some e) (hd e)) ->
  Surfaces pending (try_catch p hd).
Proof.
  intros Hp Hh. revert pending Hp.
  induction p as [a|e|X c k IH]; simpl; auto.
  intros pending ->. apply Hh.
Qed.

Lemma latest_cons pending ev tr :
  latest pending (ev :: tr) =
  latest (match ev_rejected ev with Some e => Some e | None => pending end) tr.
Proof.
  unfold latest, rejections.
  change (omap ev_rejected (ev :: tr))
    with (match ev_rejected ev with
          | Some y => y :: omap ev_rejected tr
          | None => omap ev_rejected tr
          end).
  destruct (ev_rejected ev) as [e|]; [|reflexivity].
  rewrite last_cons. destruct (last (omap ev_rejected tr)); reflexivity.
Qed.

Lemma Surfaces_run {W A} (h : Handler W) (p : Prog A) :
  forall pending w,
    Surfaces pending p ->
    match outcome (run h p w) with
    | Raised e => latest pending (trace (run h p w)) = Some e
    | Returned _ => latest pending (trace (run h p w)) = None
    end.
Proof.
  induction p as [a|e|X c k IH]; intros pending w Hp; simpl in *.
  - exact Hp.
  - exact Hp.
  - specialize (IH _ _ (h X c w).2 (Hp (h X c w).1)).
    destruct (outcome (run h (k (h X c w).1) (h X c w).2));
      rewrite latest_cons; exact IH.
Qed.

Lemma QuietAfter_run {W A} (h : Handler W) (p : Prog A) :
  forall w, QuietAfter p ->
    Forall (fun ev => is_console (ev_call ev) = true) (after_rejection (trace (run h p w))).
Proof.
  induction p as [a|e|X c k IH]; intros w Hp; simpl in *; try constructor.
  specialize (Hp (h X c w).1). unfold ev_rejected. simpl.
  destruct (rejected c (h X c w).1).
  - apply (AllCalls_run h (fun X c => is_console c = true)), Hp.
  - apply IH, Hp.
Qed.

Ltac surfaces :=
  prog_unfold; simpl;
  repeat match goal with
  | |- True => exact I
  | |- _ = _ => reflexivity
  | |- _ /\ _ => split
  | |- never_rejected _ _ => intros ?; reflexivity
  | |- forall _ : _ + _, _ => intros [?|?]; simpl
  | |- forall _ : _ * _, _ => intros [? ?]; simpl
  | |- forall _, _ => intro; simpl
  | |- Surfaces _ (try_catch _ _) => apply Surfaces_try_catch; simpl
  | |- Surfaces _ (bind (for_each _ _) _) => apply Surfaces_bind_quiet; simpl
  | |- Surfaces _ (bind _ _) => apply Surfaces_bind; simpl
  | |- Surfaces _ (match ?x with _ => _ end) => destruct x; simpl
  | |- AllCalls _ (for_each _ _) => apply AllCalls_for_each; simpl
  | |- NoThrow (for_each _ _) => apply NoThrow_for_each; simpl
  end.

Lemma createNewWallet_surfaces penv password :
  Surfaces None (Index.createNewWallet penv password).
Proof. surfaces. Qed.

Lemma QuietAfter_never {A} (p : Prog A) :
  AllCalls never_rejected p -> QuietAfter p.
Proof.
  induction p as [a|e|X c k IH]; simpl; auto.
  intros [Hc Hk] x. rewrite (Hc x). auto.
Qed.

Ltac quiet_after :=
  prog_unfold; simpl;
  repeat match goal with
  | |- True => exact I
  | |- _ = _ => reflexivity
  | |- _ /\ _ => split
  | |- never_rejected _ _ => intros ?; reflexivity
  | |- forall _ : _ + _, _ => intros [?|?]; simpl
  | |- forall _ : _ * (_ + _), _ => intros [? [?|?]]; simpl
  | |- forall _, _ => intro; simpl
  | |- QuietAfter (try_catch _ _) => apply QuietAfter_never; simpl
  | |- AllCalls _ (try_catch _ _) => apply AllCalls_try_catch; simpl
  | |- AllCalls _ (bind _ _) => apply AllCalls_bind; simpl
  | |- AllCalls _ (for_each _ _) => apply AllCalls_for_each; simpl
  end.

Lemma createNewWallet_quiet_after penv password :
  QuietAfter (Index.createNewWallet penv password).
Proof. quiet_after. Qed.

Lemma initializeExistingWallet_quiet_after penv walletAddress :
  QuietAfter (Index.initializeExistingWallet penv walletAddress).
Proof. quiet_after. Qed.

Lemma signMessage_quiet_after evmClient walletAddress password :
  QuietAfter (Index.signMessage evmClient walletAddress password).
Proof. quiet_after. Qed.

Ltac no_throw :=
  prog_unfold; simpl;
  repeat match goal with
  | |- True => exact I
  | |- forall _ : _ + _, _ => intros [?|?]; simpl
  | |- forall _, _ => intro; simpl
  end.

Lemma checkBalance_no_throw evmClient walletAddress :
  NoThrow (Index.checkBalance evmClient walletAddress).
Proof. no_throw. Qed.

Lemma signMessage_no_throw evmClient walletAddress password :
  NoThrow (Index.signMessage evmClient walletAddress password).
Proof. no_throw. Qed.

Lemma prepareTransaction_no_throw evmClient walletAddress :
  NoThrow (Index.prepareTransaction evmClient walletAddress).
Proof. no_throw. Qed.

Lemma performWalletOperations_no_throw penv walletAddress password :
  NoThrow (Index.performWalletOperations penv walletAddress password).
Proof.
  unfold Index.performWalletOperations, mbind, prog_bind, console_log, perform.
  cbn [bind]. intros [].
  apply NoThrow_try_catch. intros e. simpl. auto.
Qed.

Lemma demonstrateSecurity_no_throw penv : NoThrow (Index.demonstrateSecurity penv).
Proof.
  unfold Index.demonstrateSecurity, mbind, prog_bind, console_log, perform.
  cbn [bind]. intros [].
  apply NoThrow_try_catch. intros e. simpl. auto.
Qed.

Lemma main_no_throw penv : NoThrow (Index.main penv).
Proof.
  unfold Index.main, mbind, prog_bind, console_log, perform.
  cbn [bind]. intros [].
  apply NoThrow_try_catch. intros e. simpl. auto.
Qed.

Lemma Quickstart_main_no_throw penv : NoThrow (Quickstart.main penv).
Proof.
  unfold Quickstart.main. apply NoThrow_try_catch. intros e. simpl. auto.
Qed.

Lemma outcome_no_throw {W} (h : Handler W) (p : Prog unit) w :
  NoThrow p -> outcome (run h p w) = Returned tt.
Proof.
  intros Hp. destruct (NoThrow_run h p w Hp) as [[] Ha]. exact Ha.
Qed.

Lemma signMessage_logs_rejection {W} (h : Handler W) w evmClient walletAddress password ev e0 :
  In ev (trace (run h (Index.signMessage evmClient walletAddress password) w)) ->
  ev_rejected ev = Some e0 ->
  last (console (trace (run h (Index.signMessage evmClient walletAddress password) w))) =
  Some (LError, [Str "❌ Message signing failed:"; Str (message_or "Unknown error" e0)]).
Proof.
  run_all h; intros Hin Hrej; in_trace;
    unfold ev_rejected in Hrej; simpl in Hrej;
    try discriminate Hrej; try (injection Hrej as <-); reflexivity.
Qed.

Lemma latest_None_Some tr e : latest None tr = Some e -> last (rejections tr) = Some e.
Proof. unfold latest. destruct (last (rejections tr)); congruence. Qed.

Lemma latest_None_None tr : latest None tr = None -> rejections tr = [].
Proof.
  unfold latest. destruct (last (rejections tr)) eqn:Hl; [discriminate|].
  intros _. apply last_None. exact Hl.
Qed.


(** *** The scripts on the scripted environments *)



(** C6, counterexample: the client controls no share of the address (a
    signing request for it is refused with [NoLocalShare]), yet
    [initializeExistingWallet] succeeds for it, with neither [Unauthorized]
    nor [NotFound]; and when the balance check itself is refused with an
    [Unauthorized] error, what reaches the caller is a generic [Error]. *)
Lemma initializeExistingWallet_not_Unauthorized :
  outcome (run (scripted shareless)
             (await (SignMessage 0
                       {| sm_message := "Unauthorized access attempt";
                          sm_accountAddress := Index.randomWalletAddress;
                          sm_password := "any-password" |})) 1)
    = Raised no_share /\
  outcome (run (scripted shareless)
             (Index.initializeExistingWallet demo_env Index.randomWalletAddress) 0)
    = Returned (0, Index.randomWalletAddress) /\
  outcome (run (scripted unreadable)
             (Index.initializeExistingWallet demo_env Index.randomWalletAddress) 0)
    = Raised (ErrorObject "Error" "Wallet verification failed: share not controlled").
Proof. vm_compute. repeat split. Qed.

Lemma initializeExistingWallet_checks_balance_only_witness :
  (exists cl,
     outcome (run (scripted shareless)
                (Index.initializeExistingWallet demo_env Index.randomWalletAddress) 0)
     = Returned (cl, Index.randomWalletAddress)) /\
  outcome (run (scripted unreadable)
             (Index.initializeExistingWallet demo_env Index.randomWalletAddress) 0)
  = Raised (new_Error "Wallet verification failed: share not controlled").
Proof.
  split.
  - apply (proj1 (proj2 (initializeExistingWallet_checks_balance_only demo_env
                           Index.randomWalletAddress nat (scripted shareless) 0))).
    vm_compute. reflexivity.
  - refine (proj2 (proj2 (initializeExistingWallet_checks_balance_only demo_env
                            Index.randomWalletAddress nat (scripted unreadable) 0))
                  refused_balance_event
                  (ErrorObject "Unauthorized" "share not controlled") _ _).
    + vm_compute. do 6 right. left. reflexivity.
    + reflexivity.
Defined.

(** ** What the scripts do with reports and refusals *)

(** The errors reported through [onError] are logged one by one before the
    script goes on. *)
Lemma run_after_reports {W A B} (h : Handler W) (line : Thrown -> list LogArg)
    (k1 : unit -> Prog B) (rest : B -> Prog A) (hd : Thrown -> Prog A) (xs : list Thrown) :
  forall w, exists w',
    outcome (run h (try_catch
                      (bind (bind (for_each xs (fun e => Vis (Console LError (line e)) Ret)) k1)
                            rest) hd) w) =
    outcome (run h (try_catch (bind (k1 tt) rest) hd) w') /\
    console (trace (run h (try_catch
                             (bind (bind (for_each xs (fun e => Vis (Console LError (line e)) Ret))
                                         k1) rest) hd) w)) =
    map (fun e => (LError, line e)) xs ++
    console (trace (run h (try_catch (bind (k1 tt) rest) hd) w')).
Proof.
  induction xs as [|x xs IH]; intros w; simpl.
  - exists w. auto.
  - destruct (IH (h _ (Console LError (line x)) w).2) as (w' & Ho & Hc).
    exists w'. split; [exact Ho|].
    unfold console in *. simpl. rewrite Hc. reflexivity.
Qed.

Lemma console_only_no_create_reply (tr : list Event) ev :
  Forall (fun ev => is_console (ev_call ev) = true) tr ->
  In ev tr -> create_reply ev = None.
Proof.
  rewrite Forall_forall. intros Hall Hin.
  apply list_elem_of_In in Hin. specialize (Hall _ Hin).
  destruct ev as [X c r]. unfold create_reply. simpl in *.
  destruct c; try discriminate; reflexivity.
Qed.

(** [createNewWallet] logs every error the SDK reports through [onError] and
    still returns the wallet whenever [createWalletAccount] resolves. *)
Lemma createNewWallet_logs_reports {W} (h : Handler W) penv pw w ev reported wallet :
  In ev (trace (run h (Index.createNewWallet penv pw) w)) ->
  create_reply ev = Some (reported, inr wallet) ->
  outcome (run h (Index.createNewWallet penv pw) w) =
    Returned {| accountAddress := w_accountAddress wallet;
                walletId := w_walletId wallet;
                publicKeyHex := w_publicKeyHex wallet |} /\
  forall e, In e reported ->
    In (LError, [Str "EVM wallet creation error:"; Err e])
       (console (trace (run h (Index.createNewWallet penv pw) w))).
Proof.
  prog_unfold. simpl.
  step_run h; [step_run h; intros Hin Hev; in_trace; discriminate Hev|].
  step_run h; [step_run h; intros Hin Hev; in_trace; discriminate Hev|].
  step_run h. destruct r as [rep settled]. simpl.
  match goal with |- context [run h ?p ?w'] => set (tail := p); set (w3 := w') end.
  assert (Hquiet : Forall (fun ev => is_console (ev_call ev) = true) (trace (run h tail w3))).
  { apply (AllCalls_run h (fun X c => is_console c = true)).
    subst tail. destruct settled; all_calls; reflexivity. }
  intros Hin Hev. in_trace; try discriminate Hev.
  - unfold create_reply in Hev. simpl in Hev. injection Hev as -> ->.
    subst tail.
    match goal with
    | |- context [try_catch (bind (bind (for_each _ _) ?k1) ?rest) ?hd] =>
        destruct (run_after_reports h
                    (fun error => [Str "EVM wallet creation error:"; Err error])
                    k1 rest hd reported w3) as (w' & Ho & Hc)
    end.
    simpl in Ho, Hc. split.
    + rewrite Ho. reflexivity.
    + intros e He. unfold console in *. simpl. rewrite Hc.
      apply in_or_app. left. apply in_map_iff. exists e. auto.
  - rewrite (console_only_no_create_reply _ _ Hquiet Hin) in Hev. discriminate Hev.
Qed.

(** [demonstrateSecurity] expects the refusal: when the SDK rejects its
    signing request it reports that security is working, with the message of
    the rejection, and never prints that the attempt worked. *)
Lemma demonstrateSecurity_on_refusal {W} (h : Handler W) penv w ev e0 :
  In ev (trace (run h (Index.demonstrateSecurity penv) w)) ->
  is_sign (ev_call ev) = true ->
  ev_rejected ev = Some e0 ->
  In (LLog, [Str "✅ Security working! Cannot access unauthorized wallet:"])
     (console (trace (run h (Index.demonstrateSecurity penv) w))) /\
  In (LLog, [Str "   Error:"; Str (message_or "Access denied" e0)])
     (console (trace (run h (Index.demonstrateSecurity penv) w))) /\
  ~ In (LLog, [Str "❌ This should not work!"])
       (console (trace (run h (Index.demonstrateSecurity penv) w))).
Proof.
  run_all h; intros Hin Hsign Hrej; in_trace; simpl in Hsign; try discriminate Hsign;
    unfold ev_rejected in Hrej; simpl in Hrej;
    try discriminate Hrej; injection Hrej as <-;
    unfold console; simpl; repeat split; auto; intuition discriminate.
Qed.

(** The signing requests of the script carry the caller's address and
    password unchanged. *)
Lemma signMessage_forwards evmClient walletAddress password :
  AllCalls (fun X c =>
              match c with
              | SignMessage cl args =>
                  cl = evmClient /\ sm_accountAddress args = walletAddress /\
                  sm_password args = password
              | _ => True
              end)
    (Index.signMessage evmClient walletAddress password).
Proof. all_calls; simpl; auto. Qed.

(** What [signMessage] asks the SDK to verify is the signature the SDK just
    returned, for the same address and the same message. *)
Lemma signMessage_verifies_its_signature {W} (h : Handler W) w evmClient walletAddress
    password ev vargs :
  In ev (trace (run h (Index.signMessage evmClient walletAddress password) w)) ->
  verify_request ev = Some vargs ->
  exists ev' sargs,
    In ev' (trace (run h (Index.signMessage evmClient walletAddress password) w)) /\
    signed ev' = Some (sargs, vm_signature vargs) /\
    sm_message sargs = vm_message vargs /\
    sm_accountAddress sargs = vm_accountAddress vargs /\
    vm_accountAddress vargs = walletAddress.
Proof.
  run_all h; intros Hin Hv; in_trace; try discriminate Hv;
    injection Hv as <-;
    match goal with
    | |- context [mkEvent _ (SignMessage ?c ?a) (inr ?s)] =>
        exists (mkEvent _ (SignMessage c a) (inr s)), a
    end; simpl; auto 10.
Qed.

(** ** The wallet core *)

Section CoreFacts.

Variable ext : Core.Collaborators.

Lemma sign_unscoped st session addr message password :
  Core.session_scoped ext st session addr = false ->
  Core.sign ext st session addr message password = (inl Core.Unauthenticated, st).
Proof. intros H. unfold Core.sign. rewrite H. reflexivity. Qed.

Lemma sign_no_share st session addr message password :
  Core.session_scoped ext st session addr = true ->
  Core.shares st !! addr = None ->
  Core.sign ext st session addr message password = (inl Core.NoLocalShare, st).
Proof. intros Ha Hb. unfold Core.sign. rewrite Ha, Hb. reflexivity. Qed.

Lemma sign_wrong_password st session addr message password record :
  Core.session_scoped ext st session addr = true ->
  Core.shares st !! addr = Some record ->
  Core.password_matches st addr password = false ->
  Core.sign ext st session addr message password = (inl Core.PasswordMismatch, st).
Proof. intros Ha Hb Hc. unfold Core.sign. rewrite Ha, Hb, Hc. reflexivity. Qed.

Lemma sign_ceremony st session addr message password record :
  Core.session_scoped ext st session addr = true ->
  Core.shares st !! addr = Some record ->
  Core.password_matches st addr password = true ->
  Core.sign ext st session addr message password =
  (match Core.signing_ceremony ext (length (Core.ceremonies st))
           (Core.share_material record) message with
   | Core.Cooperates signature => inr signature
   | Core.Refuses => inl Core.CeremonyFailed
   | Core.Unreachable => inl Core.CounterpartyUnavailable
   end,
   {| Core.accounts := Core.accounts st; Core.shares := Core.shares st;
      Core.ceremonies := Core.ceremonies st ++ [Core.SignedMessage addr message] |}).
Proof.
  intros Ha Hb Hc. unfold Core.sign. rewrite Ha, Hb, Hc. simpl.
  destruct (Core.signing_ceremony ext _ _ _); reflexivity.
Qed.

(** The ceremony log grows only when all three preconditions hold. *)
Lemma sign_ran_ceremony st session addr message password :
  Core.ceremonies (Core.sign ext st session addr message password).2 <> Core.ceremonies st ->
  Core.session_scoped ext st session addr = true /\
  is_Some (Core.shares st !! addr) /\
  Core.password_matches st addr password = true.
Proof.
  unfold Core.sign.
  destruct (Core.session_scoped ext st session addr); simpl; [|congruence].
  destruct (Core.shares st !! addr) as [record|]; simpl; [|congruence].
  destruct (Core.password_matches st addr password); simpl; [|congruence].
  intros _. eauto.
Qed.

(** C1: when the Share Store holds no ShareRecord for an address, [sign] for
    that address returns no signature whatever the session, message and
    password are, runs no ceremony and leaves the state as it was (nothing,
    not even partial signature material, is produced); and for every session
    that passes the session check, the failure is [NoLocalShare].  The
    script's [demonstrateSecurity] relies on this refusal: whenever the SDK
    rejects its signing request it reports that security is working, with the
    message of the rejection, and never that the attempt worked. *)
Theorem sign_without_share_fails :
  (forall (st : Core.State) (accountAddress : string),
     Core.shares st !! accountAddress = None ->
     forall (session : Core.Session) (message : string) (password : option string),
       (forall signature,
          (Core.sign ext st session accountAddress message password).1 <> inr signature) /\
       (Core.sign ext st session accountAddress message password).2 = st /\
       (Core.session_scoped ext st session accountAddress = true ->
        (Core.sign ext st session accountAddress message password).1 =
        inl Core.NoLocalShare)) /\
  (forall (W : Type) (h : Handler W) (penv : ProcessEnv) (w : W) (ev : Event) (e0 : Thrown),
     In ev (trace (run h (Index.demonstrateSecurity penv) w)) ->
     is_sign (ev_call ev) = true ->
     ev_rejected ev = Some e0 ->
     In (LLog, [Str "✅ Security working! Cannot access unauthorized wallet:"])
        (console (trace (run h (Index.demonstrateSecurity penv) w))) /\
     In (LLog, [Str "   Error:"; Str (message_or "Access denied" e0)])
        (console (trace (run h (Index.demonstrateSecurity penv) w))) /\
     ~ In (LLog, [Str "❌ This should not work!"])
          (console (trace (run h (Index.demonstrateSecurity penv) w)))).
Proof.
  split.
  - intros st addr Hnone session message password.
    destruct (Core.session_scoped ext st session addr) eqn:Ha.
    + rewrite (sign_no_share _ _ _ message password Ha Hnone). simpl.
      repeat split; congruence.
    + rewrite (sign_unscoped _ _ _ message password Ha). simpl.
      repeat split; congruence.
  - intros W h penv w ev e0. apply demonstrateSecurity_on_refusal.
Qed.

(** What a successful creation leaves behind. *)
Lemma createAccount_created st session scheme password backup account reported st' :
  Core.createAccount ext st session scheme password backup = (Core.Created account reported, st') ->
  exists kg,
    Core.dkg_ceremony ext (length (Core.ceremonies st)) session scheme = Some kg /\
    Core.account_address account = Core.kg_address kg /\
    Core.account_encryptionPassword account = password /\
    Core.account_thresholdScheme account = scheme /\
    Core.accounts st !! Core.kg_address kg = None /\
    Core.shares st !! Core.kg_address kg = None /\
    Core.accounts st' =
      <[Core.kg_address kg := (account, Core.session_environmentId session)]> (Core.accounts st) /\
    Core.shares st' =
      <[Core.kg_address kg :=
          {| Core.share_walletId := Core.kg_walletId kg;
             Core.share_material := Core.kg_localShare kg;
             Core.share_backedUp :=
               backup && Core.backup_upload ext (Core.kg_walletId kg)
                           (Core.seal_share ext session (Core.kg_remoteShare kg)) |}]>
        (Core.shares st) /\
    reported =
      (if backup && negb (backup && Core.backup_upload ext (Core.kg_walletId kg)
                                      (Core.seal_share ext session (Core.kg_remoteShare kg)))
       then Some Core.BackupFailed else None).
Proof.
  unfold Core.createAccount.
  destruct (Core.dkg_ceremony ext _ session scheme) as [kg|]; [|discriminate].
  destruct (Core.accounts st !! Core.kg_address kg) eqn:Ha; [discriminate|].
  destruct (Core.shares st !! Core.kg_address kg) eqn:Hs; [discriminate|].
  intros [= <- <- <-]. exists kg. simpl. repeat split; auto.
Qed.

(** After a creation, the creating session passes the session check for the
    new account as long as the identity service accepts it. *)
Lemma created_session_scoped st session scheme password backup account reported st' :
  Core.createAccount ext st session scheme password backup = (Core.Created account reported, st') ->
  Core.identity_accepts ext session = true ->
  Core.session_scoped ext st' session (Core.account_address account) = true.
Proof.
  intros Hc Hid.
  destruct (createAccount_created _ _ _ _ _ _ _ _ Hc)
    as (kg & _ & Haddr & _ & _ & _ & _ & Hacc & _).
  unfold Core.session_scoped. rewrite Hid, Hacc, Haddr, lookup_insert_eq. simpl.
  apply String.eqb_refl.
Qed.

Lemma created_password st session scheme password backup account reported st' supplied :
  Core.createAccount ext st session scheme password backup = (Core.Created account reported, st') ->
  Core.password_matches st' (Core.account_address account) supplied =
  match password with
  | Some expected => bool_decide (supplied = Some expected)
  | None => true
  end.
Proof.
  intros Hc.
  destruct (createAccount_created _ _ _ _ _ _ _ _ Hc)
    as (kg & _ & Haddr & Hpw & _ & _ & _ & Hacc & _).
  unfold Core.password_matches. rewrite Hacc, Haddr, lookup_insert_eq, Hpw. reflexivity.
Qed.

(** C3: [sign] checks its preconditions in a fixed order and before any
    ceremony: a session that is not valid or not scoped to the account gives
    [Unauthenticated] whatever the share store and the password are; with
    the session accepted, a missing ShareRecord gives [NoLocalShare] whatever
    the password is; with both in place, a password that does not match the
    one the account was created with gives [PasswordMismatch].  In each of
    these cases the state, ceremony log included, is left as it was, and a
    ceremony is run only when all three preconditions hold.  In particular,
    for a wallet created with password [P] by an accepted session, [sign]
    with any other password, or none, fails with [PasswordMismatch] and runs
    no ceremony.  The script's [signMessage] hands the caller's address and
    password to the SDK unchanged, on the client it was given. *)
Theorem sign_checks_preconditions_in_order :
  (forall (st : Core.State) (session : Core.Session) (accountAddress message : string)
          (password : option string),
     (Core.session_scoped ext st session accountAddress = false ->
      Core.sign ext st session accountAddress message password =
      (inl Core.Unauthenticated, st)) /\
     (Core.session_scoped ext st session accountAddress = true ->
      Core.shares st !! accountAddress = None ->
      Core.sign ext st session accountAddress message password =
      (inl Core.NoLocalShare, st)) /\
     (Core.session_scoped ext st session accountAddress = true ->
      is_Some (Core.shares st !! accountAddress) ->
      Core.password_matches st accountAddress password = false ->
      Core.sign ext st session accountAddress message password =
      (inl Core.PasswordMismatch, st)) /\
     (Core.ceremonies (Core.sign ext st session accountAddress message password).2
        <> Core.ceremonies st ->
      Core.session_scoped ext st session accountAddress = true /\
      is_Some (Core.shares st !! accountAddress) /\
      Core.password_matches st accountAddress password = true) /\
     (forall (st0 : Core.State) (scheme : ThresholdSignatureScheme) (P : string)
             (backup : bool) (account : Core.WalletAccount)
             (reported : option Core.CreationError),
        Core.createAccount ext st0 session scheme (Some P) backup =
          (Core.Created account reported, st) ->
        Core.identity_accepts ext session = true ->
        accountAddress = Core.account_address account ->
        password <> Some P ->
        Core.sign ext st session accountAddress message password =
        (inl Core.PasswordMismatch, st))) /\
  (forall (W : Type) (h : Handler W) (w : W) (evmClient : Client)
          (walletAddress password : string) (ev : Event) (cl : Client)
          (args : SignMessageArgs),
     In ev (trace (run h (Index.signMessage evmClient walletAddress password) w)) ->
     sign_request ev = Some (cl, args) ->
     cl = evmClient /\ sm_accountAddress args = walletAddress /\
     sm_password args = password).
Proof.
  split.
  - intros st session addr message password. repeat apply conj.
    + apply sign_unscoped.
    + apply sign_no_share.
    + intros Ha [record Hb] Hc. eapply sign_wrong_password; eassumption.
    + apply sign_ran_ceremony.
    + intros st0 scheme P backup account reported Hc Hid -> Hne.
      destruct (createAccount_created _ _ _ _ _ _ _ _ Hc)
        as (kg & _ & Haddr & _ & _ & _ & _ & _ & Hsh & _).
      eapply sign_wrong_password.
      * eapply created_session_scoped; eassumption.
      * rewrite Hsh, Haddr. apply lookup_insert_eq.
      * rewrite (created_password _ _ _ _ _ _ _ _ _ Hc).
        apply bool_decide_eq_false. exact Hne.
  - intros W h w evmClient walletAddress password ev cl args Hin Hreq.
    pose proof (In_trace_call h _ w _ ev
                  (signMessage_forwards evmClient walletAddress password) Hin) as H.
    destruct ev as [X c r]. unfold sign_request in Hreq. simpl in *.
    destruct c; try discriminate. injection Hreq as <- <-. exact H.
Qed.

(** C4: when the key-generation ceremony of [createAccount] succeeds for a
    fresh address and the backup upload fails, the operation reports
    [BackupFailed] next to the new account; exactly one ShareRecord is
    inserted into the Share Store, under the new address and flagged as not
    backed up; and a subsequent [sign] for that account, by the same
    session (still accepted by the identity service) with the creation
    password, passes all three preconditions and returns the signature of the
    ceremony as soon as the counter-party cooperates.  The script's
    [createNewWallet] treats what the SDK reports through [onError] as
    non-fatal in the same way: it logs every reported error and still returns
    the wallet whenever [createWalletAccount] resolves. *)
Theorem createAccount_backup_failure_not_fatal :
  (forall (st : Core.State) (session : Core.Session) (scheme : ThresholdSignatureScheme)
          (password : option string) (kg : Core.KeyGeneration),
     Core.dkg_ceremony ext (length (Core.ceremonies st)) session scheme = Some kg ->
     Core.accounts st !! Core.kg_address kg = None ->
     Core.shares st !! Core.kg_address kg = None ->
     Core.backup_upload ext (Core.kg_walletId kg)
       (Core.seal_share ext session (Core.kg_remoteShare kg)) = false ->
     exists (account : Core.WalletAccount) (record : Core.ShareRecord),
       (Core.createAccount ext st session scheme password true).1 =
         Core.Created account (Some Core.BackupFailed) /\
       Core.account_address account = Core.kg_address kg /\
       Core.shares (Core.createAccount ext st session scheme password true).2 =
         <[Core.kg_address kg := record]> (Core.shares st) /\
       Core.share_backedUp record = false /\
       size (Core.shares (Core.createAccount ext st session scheme password true).2) =
         S (size (Core.shares st)) /\
       (forall (message : string) (signature : Signature),
          Core.identity_accepts ext session = true ->
          Core.signing_ceremony ext
            (length (Core.ceremonies (Core.createAccount ext st session scheme password true).2))
            (Core.share_material record) message = Core.Cooperates signature ->
          (Core.sign ext (Core.createAccount ext st session scheme password true).2 session
             (Core.account_address account) message password).1 = inr signature)) /\
  (forall (W : Type) (h : Handler W) (penv : ProcessEnv) (pw : option string) (w : W)
          (ev : Event) (reported : list Thrown) (wallet : EvmWallet),
     In ev (trace (run h (Index.createNewWallet penv pw) w)) ->
     create_reply ev = Some (reported, inr wallet) ->
     outcome (run h (Index.createNewWallet penv pw) w) =
       Returned {| accountAddress := w_accountAddress wallet;
                   walletId := w_walletId wallet;
                   publicKeyHex := w_publicKeyHex wallet |} /\
     forall e, In e reported ->
       In (LError, [Str "EVM wallet creation error:"; Err e])
          (console (trace (run h (Index.createNewWallet penv pw) w)))).
Proof.
  split.
  - intros st session scheme password kg Hdkg Hacc Hsh Hup.
    destruct (Core.createAccount ext st session scheme password true) as [res st'] eqn:Hc.
    pose proof Hc as Hc'.
    unfold Core.createAccount in Hc'. rewrite Hdkg, Hacc, Hsh, Hup in Hc'. simpl in Hc'.
    injection Hc' as <- <-.
    eexists. eexists. simpl. repeat apply conj; try reflexivity.
    + apply map_size_insert_None, Hsh.
    + intros message signature Hid Hcer.
      pose proof (created_session_scoped _ _ _ _ _ _ _ _ Hc Hid) as Ha.
      pose proof (created_password _ _ _ _ _ _ _ _ password Hc) as Hp.
      simpl in Ha, Hp. cbn [Core.account_address].
      rewrite (sign_ceremony _ _ _ message password _ Ha (lookup_insert_eq _ _ _)).
      * simpl in *. rewrite Hcer. reflexivity.
      * rewrite Hp. destruct password; [apply bool_decide_eq_true|]; reflexivity.
  - intros W h penv pw w ev reported wallet. apply createNewWallet_logs_reports.
Qed.

End CoreFacts.

(** *** The core on the scripted remote parties *)

Lemma sign_without_share_fails_witness :
  (Core.shares Core.empty_state !! Index.randomWalletAddress = None /\
   Core.session_scoped Core.demo_parties Core.empty_state Core.demo_session
     Index.randomWalletAddress = true /\
   (Core.sign Core.demo_parties Core.empty_state Core.demo_session
      Index.randomWalletAddress "Unauthorized access attempt" (Some "any-password")).1
   = inl Core.NoLocalShare) /\
  In (LLog, [Str "   Error:"; Str (message_or "Access denied" no_share)])
     (console (trace (run (scripted shareless) (Index.demonstrateSecurity demo_env) 0))).
Proof.
  assert (Hnone : Core.shares Core.empty_state !! Index.randomWalletAddress = None)
    by reflexivity.
  assert (Hscoped : Core.session_scoped Core.demo_parties Core.empty_state Core.demo_session
                      Index.randomWalletAddress = true)
    by reflexivity.
  assert (Hin : In refused_demo_event
                  (trace (run (scripted shareless) (Index.demonstrateSecurity demo_env) 0))).
  { vm_compute. do 4 right. left. reflexivity. }
  split.
  - split; [exact Hnone|]. split; [exact Hscoped|].
    exact (proj2 (proj2 (proj1 (sign_without_share_fails Core.demo_parties)
                           Core.empty_state Index.randomWalletAddress Hnone Core.demo_session
                           "Unauthorized access attempt" (Some "any-password")))
                 Hscoped).
  - exact (proj1 (proj2 (proj2 (sign_without_share_fails Core.demo_parties)
                           nat (scripted shareless) demo_env 0 refused_demo_event no_share
                           Hin eq_refl eq_refl))).
Defined.

Lemma sign_checks_preconditions_in_order_witness :
  (Core.createAccount Core.demo_parties Core.empty_state Core.demo_session TWO_OF_TWO
     (Some "my-secure-password") true
   = (Core.Created Core.demo_account (Some Core.BackupFailed), Core.demo_state) /\
   Core.sign Core.demo_parties Core.demo_state Core.demo_session
     (Core.account_address Core.demo_account) "hello" (Some "another-password")
   = (inl Core.PasswordMismatch, Core.demo_state)) /\
  sm_password
    {| sm_message :=
         "Hello from wallet 0x742d35Cc64C1b0ED5bbE8db88b556F0f0b7E9999 at 2025-01-01T00:00:00.000Z";
       sm_accountAddress := Index.randomWalletAddress;
       sm_password := "any-password" |} = "any-password".
Proof.
  assert (Hc : Core.createAccount Core.demo_parties Core.empty_state Core.demo_session
                 TWO_OF_TWO (Some "my-secure-password") true
               = (Core.Created Core.demo_account (Some Core.BackupFailed), Core.demo_state))
    by reflexivity.
  assert (Hin : In refused_sign_event
                  (trace (run (scripted shareless)
                            (Index.signMessage 0 Index.randomWalletAddress "any-password") 1))).
  { vm_compute. right. left. reflexivity. }
  split.
  - split; [exact Hc|].
    refine (proj2 (proj2 (proj2 (proj2
              (proj1 (sign_checks_preconditions_in_order Core.demo_parties) Core.demo_state
                 Core.demo_session (Core.account_address Core.demo_account) "hello"
                 (Some "another-password")))))
              Core.empty_state TWO_OF_TWO "my-secure-password" true Core.demo_account
              (Some Core.BackupFailed) Hc _ _ _).
    + reflexivity.
    + reflexivity.
    + discriminate.
  - exact (proj2 (proj2 (proj2 (sign_checks_preconditions_in_order Core.demo_parties)
                           nat (scripted shareless) 1 0 Index.randomWalletAddress
                           "any-password" refused_sign_event 0 _ Hin eq_refl))).
Defined.

Lemma createAccount_backup_failure_not_fatal_witness :
  (exists (account : Core.WalletAccount) (record : Core.ShareRecord),
     (Core.createAccount Core.demo_parties Core.empty_state Core.demo_session TWO_OF_TWO
        (Some "my-secure-password") true).1
     = Core.Created account (Some Core.BackupFailed) /\
     Core.share_backedUp record = false /\
     (Core.sign Core.demo_parties Core.demo_state Core.demo_session
        (Core.account_address account) "hello" (Some "my-secure-password")).1
     = inr "sig:hello") /\
  outcome (run (scripted reporting) (Index.createNewWallet demo_env None) 0) =
  Returned {| accountAddress := w_accountAddress demo_wallet;
              walletId := w_walletId demo_wallet;
              publicKeyHex := w_publicKeyHex demo_wallet |}.
Proof.
  split.
  - destruct (proj1 (createAccount_backup_failure_not_fatal Core.demo_parties)
                Core.empty_state Core.demo_session TWO_OF_TWO (Some "my-secure-password")
                Core.demo_key eq_refl eq_refl eq_refl eq_refl)
      as (account & record & Hres & _ & _ & Hflag & _ & Hsign).
    exists account, record. split; [exact Hres|]. split; [exact Hflag|].
    apply Hsign; reflexivity.
  - refine (proj1 (proj2 (createAccount_backup_failure_not_fatal Core.demo_parties)
                     nat (scripted reporting) demo_env None 0 reported_create_event
                     [backup_failed] demo_wallet _ eq_refl)).
    vm_compute. do 2 right. left. reflexivity.
Defined.

(** ** The definitions on small inputs *)

Example or_else_undefined : or_else None "your-secure-password" = "your-secure-password".
Proof. reflexivity. Qed.

Example or_else_empty : or_else (Some EmptyString) "your-secure-password" = "your-secure-password".
Proof. reflexivity. Qed.

Example or_else_given :
  or_else (Some "my-secure-password") "your-secure-password" = "my-secure-password".
Proof. reflexivity. Qed.

Example main_console_friendly :
  console (trace (run (scripted friendly) (Index.main demo_env) 0)) =
  [(LLog, [Str ("🚀 Starting wallet operations..." +:+ nl)]);
   (LLog, [Str "=== Creating New Wallet ==="]);
   (LLog, [Str "✅ New wallet created successfully!"]);
   (LLog, [Str "📍 Address:"; Str "0x6465482b114FC64E2Bbd0DE02DA21A9A4854Bc4b"]);
   (LLog, [Str "🆔 Wallet ID:"; Str "wallet-1"]);
   (LLog, [Str "🔑 Public Key:"; Str "0x04ab"]);
   (LLog, [Str (nl +:+ "New Wallet Address:");
           Info {| accountAddress := "0x6465482b114FC64E2Bbd0DE02DA21A9A4854Bc4b";
                   walletId := "wallet-1";
                   publicKeyHex := "0x04ab" |}])].
Proof. reflexivity. Qed.

Example demonstrateSecurity_console_shareless :
  console (trace (run (scripted shareless) (Index.demonstrateSecurity demo_env) 0)) =
  [(LLog, [Str (nl +:+ "🔒 Security Demonstration:")]);
   (LLog, [Str "🚨 Attempting to sign with unauthorized wallet:";
           Str "0x742d35Cc64C1b0ED5bbE8db88b556F0f0b7E9999"]);
   (LLog, [Str "✅ Security working! Cannot access unauthorized wallet:"]);
   (LLog, [Str "   Error:"; Str "no key share for this account"])].
Proof. reflexivity. Qed.

Example performWalletOperations_console_friendly :
  console (trace (run (scripted friendly)
                    (Index.performWalletOperations demo_env "0xabc" "pw") 0)) =
  [(LLog, [Str (nl +:+ "--- 💼 Wallet Operations ---")]);
   (LLog, [Str "💰 Balance: 0 wei"]);
   (LLog, [EthLine 0]);
   (LLog, [Str "✍️  Message signed:";
           Str "Hello from wallet 0xabc at 2025-01-01T00:00:00.000Z"]);
   (LLog, [Str "🔏 Signature:";
           Str "sig:Hello from wallet 0xabc at 2025-01-01T00:00:00.000Z"]);
   (LLog, [Str "✅ Signature verification:"; Str "Valid"]);
   (LLog, [Str "📝 Transaction prepared:";
           TxSummary (Some null_address) (Some "1000000000000000")
                     (Some "21000") (Some "1000000")]);
   (LLog, [Str "ℹ️  Note: Transaction not sent - this is just preparation demo"])].
Proof. reflexivity. Qed.

(** A signing call on a client that was never authenticated breaks the
    session discipline. *)
Example undisciplined_trace :
  disciplined (Some "env-1") no_sessions
    [mkEvent _ (NewDynamicEvmWalletClient
                  {| cfg_authToken := None; cfg_environmentId := Some "env-1" |})
             (inr 0);
     mkEvent _ (SignMessage 0 {| sm_message := "m"; sm_accountAddress := "0xabc";
                                 sm_password := "pw" |})
             (inr "sig")] = false.
Proof. reflexivity. Qed.

(** A client authenticated for another environment does not count. *)
Example foreign_environment_trace :
  disciplined (Some "env-1") no_sessions
    [mkEvent _ (NewDynamicEvmWalletClient
                  {| cfg_authToken := None; cfg_environmentId := Some "env-2" |})
             (inr 0);
     mkEvent _ (AuthenticateApiToken 0 (Some "token-1")) (inr tt);
     mkEvent _ (SignMessage 0 {| sm_message := "m"; sm_accountAddress := "0xabc";
                                 sm_password := "pw" |})
             (inr "sig")] = false.
Proof. reflexivity. Qed.

Example sign_after_creation :
  (Core.sign Core.demo_parties Core.demo_state Core.demo_session
     "0x6465482b114FC64E2Bbd0DE02DA21A9A4854Bc4b" "hello" (Some "my-secure-password")).1
  = inr "sig:hello".
Proof. reflexivity. Qed.

Example sign_without_password_after_creation :
  (Core.sign Core.demo_parties Core.demo_state Core.demo_session
     "0x6465482b114FC64E2Bbd0DE02DA21A9A4854Bc4b" "hello" None).1
  = inl Core.PasswordMismatch.
Proof. reflexivity. Qed.

Example sign_with_rejected_session :
  (Core.sign Core.demo_parties Core.demo_state
     {| Core.session_credential := "token-2";
        Core.session_environmentId := "env-1";
        Core.session_authenticatedAt := 0 |}
     "0x6465482b114FC64E2Bbd0DE02DA21A9A4854Bc4b" "hello" (Some "my-secure-password")).1
  = inl Core.Unauthenticated.
Proof. reflexivity. Qed.

Example sign_from_other_environment :
  (Core.sign Core.demo_parties Core.demo_state
     {| Core.session_credential := "token-1";
        Core.session_environmentId := "env-2";
        Core.session_authenticatedAt := 0 |}
     "0x6465482b114FC64E2Bbd0DE02DA21A9A4854Bc4b" "hello" (Some "my-secure-password")).1
  = inl Core.Unauthenticated.
Proof. reflexivity. Qed.

Example second_creation_is_duplicate :
  (Core.createAccount Core.demo_parties Core.demo_state Core.demo_session TWO_OF_TWO
     None true).1
  = Core.CreationFailed Core.DuplicateAccount.
Proof. reflexivity. Qed.

(** The bound on the age of a session is reached: on an SDK that accepts
    everything, the public client of the preparation step is asked for 15
    calls after the token was accepted. *)
Example session_age_reaches_the_bound :
  fresh 14 None
    (trace (run (scripted friendly)
              (operation demo_env (OpPerformWalletOperations "0xabc" "pw")) 0)) = false.
Proof. vm_compute. reflexivity. Qed.

(** Two callers taking turns: each constructs a client of its own, and the
    first to sign is the caller that authenticated first. *)
Example callers_taking_turns :
  omap (fun item => match sign_request item.2 with
                    | Some (cl, _) => Some (item.1, cl)
                    | None => None
                    end)
    (run_both (scripted friendly)
       (operation demo_env OpDemonstrateSecurity)
       (operation demo_env OpDemonstrateSecurity)
       [First; Second; First; Second; First; Second; First; Second; First; Second] 0)
  = [(First, 0); (Second, 1)].
Proof. vm_compute. reflexivity. Qed.

(** * Further properties of the scripts

    ** Counting and ordering calls *)

Lemma calls_cons P ev tr :
  calls P (ev :: tr) = (if P _ (ev_call ev) then 1 else 0) + calls P tr.
Proof.
  unfold calls. rewrite filter_cons.
  destruct (P _ (ev_call ev)).
  - rewrite decide_True by reflexivity. reflexivity.
  - rewrite decide_False by discriminate. reflexivity.
Qed.

Lemma calls_app P tr1 tr2 : calls P (tr1 ++ tr2) = calls P tr1 + calls P tr2.
Proof. unfold calls. rewrite filter_app, length_app. reflexivity. Qed.

Lemma AtMost_run {W A} (h : Handler W) P (p : Prog A) :
  forall n w, AtMost P n p -> calls P (trace (run h p w)) <= n.
Proof.
  induction p as [a|e|X c k IH]; intros n w Hp; simpl in *; try (cbv; lia).
  rewrite calls_cons. simpl.
  destruct (P X c).
  - destruct n as [|m]; [destruct Hp|].
    specialize (IH (h X c w).1 m (h X c w).2 (Hp _)). lia.
  - specialize (IH (h X c w).1 n (h X c w).2 (Hp _)). lia.
Qed.

Lemma Exactly_run {W A} (h : Handler W) P (p : Prog A) :
  forall n w, Exactly P n p -> calls P (trace (run h p w)) = n.
Proof.
  induction p as [a|e|X c k IH]; intros n w Hp; simpl in *; try (subst; reflexivity).
  rewrite calls_cons. simpl.
  destruct (P X c).
  - destruct n as [|m]; [destruct Hp|].
    rewrite (IH (h X c w).1 m (h X c w).2 (Hp _)). reflexivity.
  - rewrite (IH (h X c w).1 n (h X c w).2 (Hp _)). reflexivity.
Qed.

Lemma AtMost_none {A} P n (p : Prog A) :
  AllCalls (fun X c => P X c = false) p -> AtMost P n p.
Proof.
  induction p as [a|e|X c k IH]; simpl; auto.
  intros [Hc Hk]. rewrite Hc. auto.
Qed.

Lemma Exactly_none {A} P (p : Prog A) :
  AllCalls (fun X c => P X c = false) p -> Exactly P 0 p.
Proof.
  induction p as [a|e|X c k IH]; simpl; auto.
  intros [Hc Hk]. rewrite Hc. auto.
Qed.

Lemma Phased_run {W A} (h : Handler W) (p : Prog A) :
  forall n w, Phased n p -> phases_ordered n (trace (run h p w)) = true.
Proof.
  induction p as [a|e|X c k IH]; intros n w Hp; simpl in *; auto.
  destruct (phase c) as [m|].
  - destruct Hp as [Hle Hk]. rewrite (IH (h X c w).1 m (h X c w).2 (Hk _)).
    apply andb_true_intro. split; [apply Nat.leb_le; exact Hle|reflexivity].
  - apply IH, Hp.
Qed.

Lemma console_app tr1 tr2 : console (tr1 ++ tr2) = console tr1 ++ console tr2.
Proof. unfold console. apply omap_app. Qed.

Lemma rejections_app tr1 tr2 : rejections (tr1 ++ tr2) = rejections tr1 ++ rejections tr2.
Proof. unfold rejections. apply omap_app. Qed.

(** Unfold a script and follow every reply. *)
Ltac follow :=
  prog_unfold; simpl;
  repeat match goal with
  | |- True => exact I
  | |- _ = _ => reflexivity
  | |- _ <= _ => lia
  | |- _ /\ _ => split
  | |- forall _ : _ + _, _ => intros [?|?]; simpl
  | |- forall _ : _ * (_ + _), _ => intros [? [?|?]]; simpl
  | |- forall _, _ => intro; simpl
  | |- AtMost _ _ (try_catch _ _) => apply AtMost_none; simpl
  | |- AtMost _ _ (bind _ _) => apply AtMost_none; simpl
  | |- Exactly _ 0 (try_catch _ _) => apply Exactly_none; simpl
  | |- Exactly _ 0 (bind _ _) => apply Exactly_none; simpl
  | |- AllCalls _ (try_catch _ _) => apply AllCalls_try_catch; simpl
  | |- AllCalls _ (bind _ _) => apply AllCalls_bind; simpl
  | |- AllCalls _ (for_each _ _) => apply AllCalls_for_each; simpl
  end.

(** ** No call is repeated *)

(** X1: no operation of the script retries or repeats a call.  In every run
    of every operation the token is checked at most once, at most one wallet
    is created (and none at all unless the operation is [createNewWallet] or
    [main]), and there is at most one signing request, one verification, one
    balance read and one transaction preparation; at most two public clients
    are created.  The quick-start script creates at most one wallet too. *)
Theorem operations_never_repeat_a_call :
  forall (penv : ProcessEnv) (op : Operation) (W : Type) (h : Handler W) (w : W),
    calls (@is_token_check) (trace (run h (operation penv op) w)) <= 1 /\
    calls (@is_create) (trace (run h (operation penv op) w)) <=
      match op with
      | OpCreateNewWallet _ | OpMain => 1
      | _ => 0
      end /\
    calls (@is_sign) (trace (run h (operation penv op) w)) <= 1 /\
    calls (@is_verify) (trace (run h (operation penv op) w)) <= 1 /\
    calls (@is_balance) (trace (run h (operation penv op) w)) <= 1 /\
    calls (@is_prepare) (trace (run h (operation penv op) w)) <= 1 /\
    calls (@is_public_client) (trace (run h (operation penv op) w)) <= 2 /\
    calls (@is_create) (trace (run h (Quickstart.main penv) w)) <= 1.
Proof.
  intros penv op W h w.
  repeat apply conj; apply AtMost_run; try (destruct op; unfold operation); follow.
Qed.

(** ** The steps of [performWalletOperations] *)

Lemma Tally_run {W A} (h : Handler W) P n (p : Prog A) :
  forall seen count w,
    Tally P n seen count p ->
    count + calls P (trace (run h p w)) =
    (if seen || authenticated_run (trace (run h p w)) then n else 0).
Proof.
  induction p as [a|e|X c k IH]; intros seen count w Hp; simpl in *.
  - rewrite orb_false_r. cbv [calls]. simpl. lia.
  - rewrite orb_false_r. cbv [calls]. simpl. lia.
  - rewrite calls_cons. simpl.
    specialize (IH (h X c w).1 _ _ (h X c w).2 (Hp (h X c w).1)).
    unfold accepted_token at 1. simpl.
    rewrite orb_assoc. rewrite <- IH. lia.
Qed.

Lemma performWalletOperations_tally_sign penv walletAddress password :
  Tally (@is_sign) 1 false 0 (Index.performWalletOperations penv walletAddress password).
Proof. follow. Qed.

Lemma performWalletOperations_tally_viem penv walletAddress password :
  Tally (@is_import_of "viem") 2 false 0
    (Index.performWalletOperations penv walletAddress password).
Proof. follow. Qed.

Lemma performWalletOperations_phased penv walletAddress password :
  Phased 0 (Index.performWalletOperations penv walletAddress password).
Proof. follow. Qed.

(** X2: the three steps of [performWalletOperations] do not depend on each
    other's success.  Once the client is authenticated, the signing request
    is issued exactly once however the balance check went, and both the
    balance check and the transaction preparation are started (each loads
    viem) however signing went; the steps run in the order balance, signing,
    preparation.  When the client cannot be authenticated, nothing is asked
    of the chain, no signing is attempted, and the error is printed after
    "Wallet operations failed:". *)
Theorem performWalletOperations_steps_independent :
  forall (penv : ProcessEnv) (walletAddress password : string)
         (W : Type) (h : Handler W) (w : W),
    calls (@is_sign)
      (trace (run h (Index.performWalletOperations penv walletAddress password) w)) =
      (if authenticated_run
            (trace (run h (Index.performWalletOperations penv walletAddress password) w))
       then 1 else 0) /\
    calls (@is_import_of "viem")
      (trace (run h (Index.performWalletOperations penv walletAddress password) w)) =
      (if authenticated_run
            (trace (run h (Index.performWalletOperations penv walletAddress password) w))
       then 2 else 0) /\
    phases_ordered 0
      (trace (run h (Index.performWalletOperations penv walletAddress password) w)) = true /\
    (authenticated_run
       (trace (run h (Index.performWalletOperations penv walletAddress password) w)) = false ->
     calls (@is_chain_read)
       (trace (run h (Index.performWalletOperations penv walletAddress password) w)) = 0 /\
     exists e,
       rejections
         (trace (run h (Index.performWalletOperations penv walletAddress password) w)) = [e] /\
       last (console
               (trace (run h (Index.performWalletOperations penv walletAddress password) w))) =
       Some (LError, [Str "❌ Wallet operations failed:"; Err e])).
Proof.
  intros penv walletAddress password W h w. repeat apply conj.
  - apply (Tally_run h (@is_sign) 1 _ false 0 w),
      performWalletOperations_tally_sign.
  - apply (Tally_run h (@is_import_of "viem") 2 _ false 0 w),
      performWalletOperations_tally_viem.
  - apply Phased_run, performWalletOperations_phased.
  - prog_unfold. simpl. step_run h. step_run h.
    + step_run h. intros _. split; [reflexivity|]. eexists. split; reflexivity.
    + step_run h.
      * step_run h. intros _. split; [reflexivity|]. eexists. split; reflexivity.
      * intros Hf. discriminate Hf.
Qed.

Lemma performWalletOperations_steps_independent_witness :
  authenticated_run
    (trace (run (scripted locked_out)
              (Index.performWalletOperations demo_env "0xabc" "pw") 0)) = false /\
  calls (@is_chain_read)
    (trace (run (scripted locked_out)
              (Index.performWalletOperations demo_env "0xabc" "pw") 0)) = 0.
Proof.
  assert (Hf : authenticated_run
                 (trace (run (scripted locked_out)
                           (Index.performWalletOperations demo_env "0xabc" "pw") 0)) = false)
    by reflexivity.
  split; [exact Hf|].
  exact (proj1 (proj2 (proj2 (proj2
           (performWalletOperations_steps_independent demo_env "0xabc" "pw" nat
              (scripted locked_out) 0))) Hf)).
Defined.

(** ** The verdict of [demonstrateSecurity] *)

(** X3: [demonstrateSecurity] prints exactly one verdict.  It prints
    "This should not work!" when no call was rejected, and "Security
    working!" as soon as any call was rejected.  That includes a rejected
    client construction or authentication: then no signing request is made at
    all, and the script still reports that security is working, followed by
    the message of that error. *)
Theorem demonstrateSecurity_verdict :
  forall (penv : ProcessEnv) (W : Type) (h : Handler W) (w : W),
    (rejections (trace (run h (Index.demonstrateSecurity penv) w)) = [] ->
     In should_not_work (console (trace (run h (Index.demonstrateSecurity penv) w))) /\
     ~ In security_working (console (trace (run h (Index.demonstrateSecurity penv) w)))) /\
    (rejections (trace (run h (Index.demonstrateSecurity penv) w)) <> [] ->
     In security_working (console (trace (run h (Index.demonstrateSecurity penv) w))) /\
     ~ In should_not_work (console (trace (run h (Index.demonstrateSecurity penv) w)))) /\
    (authenticated_run (trace (run h (Index.demonstrateSecurity penv) w)) = false ->
     calls (@is_sign) (trace (run h (Index.demonstrateSecurity penv) w)) = 0 /\
     exists e,
       rejections (trace (run h (Index.demonstrateSecurity penv) w)) = [e] /\
       last (console (trace (run h (Index.demonstrateSecurity penv) w))) =
       Some (LLog, [Str "   Error:"; Str (message_or "Access denied" e)])).
Proof.
  intros penv W h w. unfold security_working, should_not_work.
  repeat apply conj; run_all h; intros Hr;
    try discriminate Hr; try (exfalso; apply Hr; reflexivity);
    unfold console, calls; simpl;
    try (split; [reflexivity|eexists; split; reflexivity]);
    (split; [intuition congruence|intros Hin; in_trace; intuition discriminate]).
Qed.

Lemma demonstrateSecurity_verdict_witness :
  authenticated_run
    (trace (run (scripted locked_out) (Index.demonstrateSecurity demo_env) 0)) = false /\
  calls (@is_sign)
    (trace (run (scripted locked_out) (Index.demonstrateSecurity demo_env) 0)) = 0 /\
  In security_working
     (console (trace (run (scripted locked_out) (Index.demonstrateSecurity demo_env) 0))) /\
  In should_not_work
     (console (trace (run (scripted friendly) (Index.demonstrateSecurity demo_env) 0))).
Proof.
  assert (Hf : authenticated_run
                 (trace (run (scripted locked_out) (Index.demonstrateSecurity demo_env) 0))
               = false) by reflexivity.
  assert (Hr : rejections
                 (trace (run (scripted locked_out) (Index.demonstrateSecurity demo_env) 0))
               <> []) by (vm_compute; discriminate).
  assert (Hn : rejections
                 (trace (run (scripted friendly) (Index.demonstrateSecurity demo_env) 0))
               = []) by reflexivity.
  split; [exact Hf|]. repeat apply conj.
  - exact (proj1 (proj2 (proj2 (demonstrateSecurity_verdict demo_env nat
                                  (scripted locked_out) 0)) Hf)).
  - exact (proj1 (proj1 (proj2 (demonstrateSecurity_verdict demo_env nat
                                  (scripted locked_out) 0)) Hr)).
  - exact (proj1 (proj1 (demonstrateSecurity_verdict demo_env nat
                           (scripted friendly) 0) Hn)).
Defined.

(** ** What [signMessage] signs, verifies and prints *)

(** X4: [signMessage] signs a message built from the wallet address and the
    time it has just read, "Hello from wallet <address> at <time>", and what
    it then asks the SDK to verify is exactly the signature the SDK returned
    for that request, with the same message and the same address. *)
Theorem signMessage_verifies_what_it_signed :
  forall (evmClient : Client) (walletAddress password : string)
         (W : Type) (h : Handler W) (w : W),
    (forall ev cl sargs,
       In ev (trace (run h (Index.signMessage evmClient walletAddress password) w)) ->
       sign_request ev = Some (cl, sargs) ->
       exists now,
         In (mkEvent _ DateNowISO now)
            (trace (run h (Index.signMessage evmClient walletAddress password) w)) /\
         sm_message sargs = "Hello from wallet " +:+ walletAddress +:+ " at " +:+ now) /\
    (forall ev vargs,
       In ev (trace (run h (Index.signMessage evmClient walletAddress password) w)) ->
       verify_request ev = Some vargs ->
       exists ev' sargs,
         In ev' (trace (run h (Index.signMessage evmClient walletAddress password) w)) /\
         signed ev' = Some (sargs, vm_signature vargs) /\
         sm_message sargs = vm_message vargs /\
         sm_accountAddress sargs = vm_accountAddress vargs /\
         vm_accountAddress vargs = walletAddress).
Proof.
  intros evmClient walletAddress password W h w. split.
  - intros ev cl sargs. run_all h; intros Hin Hreq; in_trace; try discriminate Hreq;
      injection Hreq as <- <-; eexists; (split; [left; reflexivity|reflexivity]).
  - intros ev vargs. apply signMessage_verifies_its_signature.
Qed.

(** X5: what [signMessage] prints is what the SDK answered.  When the SDK
    returned a signature, the console of the run is exactly three lines: the
    message that was signed, then the signature, then one closing line; when
    the verification answers, the closing line is the verdict, "Valid" for
    true and "Invalid" for false; and when any call was rejected no verdict
    is printed at all: the last line is "Message signing failed:" with the
    message of the rejection, also when it was the verification that was
    rejected. *)
Theorem signMessage_prints_what_was_answered :
  forall (evmClient : Client) (walletAddress password : string)
         (W : Type) (h : Handler W) (w : W),
    (forall ev sargs signature,
       In ev (trace (run h (Index.signMessage evmClient walletAddress password) w)) ->
       signed ev = Some (sargs, signature) ->
       exists closing,
         console (trace (run h (Index.signMessage evmClient walletAddress password) w)) =
         [(LLog, [Str "✍️  Message signed:"; Str (sm_message sargs)]);
          (LLog, [Str "🔏 Signature:"; Str signature]);
          closing]) /\
    (forall ev b,
       In ev (trace (run h (Index.signMessage evmClient walletAddress password) w)) ->
       verified ev = Some b ->
       last (console (trace (run h (Index.signMessage evmClient walletAddress password) w))) =
       Some (LLog, [Str "✅ Signature verification:";
                    Str (if b then "Valid" else "Invalid")])) /\
    (forall e,
       last (rejections (trace (run h (Index.signMessage evmClient walletAddress password) w)))
         = Some e ->
       last (console (trace (run h (Index.signMessage evmClient walletAddress password) w))) =
       Some (LError, [Str "❌ Message signing failed:";
                      Str (message_or "Unknown error" e)]) /\
       forall verdict,
         ~ In (LLog, [Str "✅ Signature verification:"; Str verdict])
              (console (trace (run h (Index.signMessage evmClient walletAddress password) w)))).
Proof.
  intros evmClient walletAddress password W h w. repeat apply conj.
  - intros ev sargs signature. run_all h; intros Hin Hs; in_trace;
      try discriminate Hs; injection Hs as <- <-;
      eexists; reflexivity.
  - intros ev b. run_all h; intros Hin Hv; in_trace;
      try discriminate Hv; injection Hv as <-; reflexivity.
  - intros e. run_all h; intros Hl; try discriminate Hl; injection Hl as <-;
      (split; [reflexivity|]); intros verdict Hin; unfold console in Hin; simpl in Hin;
      intuition discriminate.
Qed.

Lemma signMessage_verifies_what_it_signed_witness :
  exists ev' sargs,
    In ev' (trace (run (scripted friendly) (Index.signMessage 0 "0xabc" "pw") 1)) /\
    signed ev' = Some (sargs, vm_signature friendly_verify_args) /\
    sm_message sargs = vm_message friendly_verify_args /\
    sm_accountAddress sargs = vm_accountAddress friendly_verify_args /\
    vm_accountAddress friendly_verify_args = "0xabc".
Proof.
  refine (proj2 (signMessage_verifies_what_it_signed 0 "0xabc" "pw" nat (scripted friendly) 1)
            friendly_verify_event friendly_verify_args _ eq_refl).
  vm_compute. do 4 right. left. reflexivity.
Defined.

Lemma signMessage_prints_what_was_answered_witness :
  last (console (trace (run (scripted friendly) (Index.signMessage 0 "0xabc" "pw") 1))) =
  Some (LLog, [Str "✅ Signature verification:"; Str "Valid"]).
Proof.
  refine (proj1 (proj2 (signMessage_prints_what_was_answered 0 "0xabc" "pw" nat
                          (scripted friendly) 1))
            friendly_verify_event true _ eq_refl).
  vm_compute. do 4 right. left. reflexivity.
Defined.

(** ** What is logged is what is thrown *)

Lemma createNewWallet_console_end {W} (h : Handler W) penv pw w :
  match outcome (run h (Index.createNewWallet penv pw) w) with
  | Raised e =>
      exists before,
        console (trace (run h (Index.createNewWallet penv pw) w)) =
        before ++ [(LError, [Str "❌ Wallet creation failed:"; Err e])]
  | Returned info =>
      exists before,
        console (trace (run h (Index.createNewWallet penv pw) w)) =
        before ++ [(LLog, [Str "✅ New wallet created successfully!"]);
                   (LLog, [Str "📍 Address:"; Str (accountAddress info)]);
                   (LLog, [Str "🆔 Wallet ID:"; Str (walletId info)]);
                   (LLog, [Str "🔑 Public Key:"; Str (publicKeyHex info)])]
  end.
Proof.
  prog_unfold. simpl.
  step_run h; [exists []; reflexivity|].
  step_run h; [exists []; reflexivity|].
  step_run h. destruct r as [rep [e|wallet]]; simpl.
  - match goal with
    | |- context [try_catch (bind (bind (for_each _ _) ?k1) ?rest) ?hd] =>
        destruct (run_after_reports h
                    (fun error => [Str "EVM wallet creation error:"; Err error])
                    k1 rest hd rep w2) as (w' & Ho & Hc)
    end.
    simpl in Ho, Hc. rewrite Ho. unfold console in *. simpl. rewrite Hc.
    eexists. reflexivity.
  - match goal with
    | |- context [try_catch (bind (bind (for_each _ _) ?k1) ?rest) ?hd] =>
        destruct (run_after_reports h
                    (fun error => [Str "EVM wallet creation error:"; Err error])
                    k1 rest hd rep w2) as (w' & Ho & Hc)
    end.
    simpl in Ho, Hc. rewrite Ho. unfold console in *. simpl. rewrite Hc.
    eexists. reflexivity.
Qed.

Lemma initializeExistingWallet_console_end {W} (h : Handler W) penv walletAddress w :
  match outcome (run h (Index.initializeExistingWallet penv walletAddress) w) with
  | Raised e =>
      last (console (trace (run h (Index.initializeExistingWallet penv walletAddress) w))) =
      Some (LError, [Str "❌ Failed to initialize wallet:"; Err e])
  | Returned (cl, address) =>
      address = walletAddress /\
      last (console (trace (run h (Index.initializeExistingWallet penv walletAddress) w))) =
      Some (LLog, [Str "✅ Wallet initialized successfully!"]) /\
      exists ev,
        In ev (trace (run h (Index.initializeExistingWallet penv walletAddress) w)) /\
        constructed_client ev = Some cl
  end.
Proof.
  run_all h; try reflexivity.
  split; [reflexivity|]. split; [reflexivity|].
  eexists. split; [left; reflexivity|reflexivity].
Qed.

(** X6: what [createNewWallet] and [initializeExistingWallet] throw is what
    they logged last.  When [createNewWallet] throws an error, the last
    console line is "Wallet creation failed:" with that very error; when it
    returns, the console ends with the success line followed by the address,
    the wallet id and the public key of the wallet it returns.  When
    [initializeExistingWallet] throws, the last line is "Failed to initialize
    wallet:" with the error thrown (the wrapped one, if the balance check
    failed); when it returns, it returns the address it was given together
    with the client it constructed, after printing the success line. *)
Theorem creation_and_initialisation_log_what_they_throw :
  forall (penv : ProcessEnv) (W : Type) (h : Handler W) (w : W),
    (forall pw,
       match outcome (run h (Index.createNewWallet penv pw) w) with
       | Raised e =>
           last (console (trace (run h (Index.createNewWallet penv pw) w))) =
           Some (LError, [Str "❌ Wallet creation failed:"; Err e])
       | Returned info =>
           exists before,
             console (trace (run h (Index.createNewWallet penv pw) w)) =
             before ++ [(LLog, [Str "✅ New wallet created successfully!"]);
                        (LLog, [Str "📍 Address:"; Str (accountAddress info)]);
                        (LLog, [Str "🆔 Wallet ID:"; Str (walletId info)]);
                        (LLog, [Str "🔑 Public Key:"; Str (publicKeyHex info)])]
       end) /\
    (forall walletAddress,
       match outcome (run h (Index.initializeExistingWallet penv walletAddress) w) with
       | Raised e =>
           last (console
                   (trace (run h (Index.initializeExistingWallet penv walletAddress) w))) =
           Some (LError, [Str "❌ Failed to initialize wallet:"; Err e])
       | Returned (cl, address) =>
           address = walletAddress /\
           last (console
                   (trace (run h (Index.initializeExistingWallet penv walletAddress) w))) =
           Some (LLog, [Str "✅ Wallet initialized successfully!"]) /\
           exists ev,
             In ev (trace (run h (Index.initializeExistingWallet penv walletAddress) w)) /\
             constructed_client ev = Some cl
       end).
Proof.
  intros penv W h w. split.
  - intros pw. pose proof (createNewWallet_console_end h penv pw w) as H.
    destruct (outcome (run h (Index.createNewWallet penv pw) w)); [exact H|].
    destruct H as [before ->]. apply last_snoc.
  - intros walletAddress. apply initializeExistingWallet_console_end.
Qed.

(** ** The entry points *)

(** A program run between two console lines and under a handler that only
    logs: the console shows the two lines, what the program printed, and one
    more line for its result or its failure. *)
Lemma run_logged_step {W A} (h : Handler W) (p : Prog A) (done : A -> list LogArg)
    (failed : Thrown -> list LogArg) (args1 args2 : list LogArg) (w : W) :
  exists w',
    console (trace (run h
      (Vis (Console LLog args1) (fun _ =>
         try_catch
           (Vis (Console LLog args2) (fun _ =>
              bind p (fun a => Vis (Console LLog (done a)) Ret)))
           (fun e => Vis (Console LError (failed e)) Ret))) w)) =
    (LLog, args1) :: (LLog, args2) :: console (trace (run h p w')) ++
      [match outcome (run h p w') with
       | Returned a => (LLog, done a)
       | Raised e => (LError, failed e)
       end] /\
    rejections (trace (run h
      (Vis (Console LLog args1) (fun _ =>
         try_catch
           (Vis (Console LLog args2) (fun _ =>
              bind p (fun a => Vis (Console LLog (done a)) Ret)))
           (fun e => Vis (Console LError (failed e)) Ret))) w)) =
    rejections (trace (run h p w')).
Proof.
  simpl.
  set (w1 := (h _ (Console LLog args1) w).2).
  set (w2 := (h _ (Console LLog args2) w1).2).
  exists w2.
  rewrite run_try_catch, run_bind.
  destruct (outcome (run h p w2)) as [a|e]; simpl.
  - unfold console, rejections. simpl. rewrite !omap_app. simpl.
    rewrite app_nil_r. split; reflexivity.
  - unfold console, rejections. simpl. rewrite !omap_app. simpl.
    rewrite app_nil_r. split; reflexivity.
Qed.

Lemma main_calls penv :
  AllCalls (fun X c => is_sign c = false /\ is_verify c = false /\ is_chain_read c = false)
    (Index.main penv).
Proof. all_calls; reflexivity. Qed.

(** X7: [main] only authenticates, creates a wallet and writes to the
    console: it never signs, verifies or reads from the chain.  A failure of
    the wallet creation is logged twice, first by [createNewWallet] after
    "Wallet creation failed:" and then by [main] after "Main execution
    failed:", with the same error both times; when nothing is rejected the
    console ends with the four lines of [createNewWallet] and the line "New
    Wallet Address:" showing the same wallet. *)
Theorem main_logs_a_failure_twice :
  forall (penv : ProcessEnv) (W : Type) (h : Handler W) (w : W),
    Forall (fun ev => is_sign (ev_call ev) = false /\ is_verify (ev_call ev) = false /\
                      is_chain_read (ev_call ev) = false)
      (trace (run h (Index.main penv) w)) /\
    match last (rejections (trace (run h (Index.main penv) w))) with
    | Some e =>
        exists before,
          console (trace (run h (Index.main penv) w)) =
          before ++ [(LError, [Str "❌ Wallet creation failed:"; Err e]);
                     (LError, [Str "❌ Main execution failed:"; Err e])]
    | None =>
        exists before info,
          console (trace (run h (Index.main penv) w)) =
          before ++ [(LLog, [Str "✅ New wallet created successfully!"]);
                     (LLog, [Str "📍 Address:"; Str (accountAddress info)]);
                     (LLog, [Str "🆔 Wallet ID:"; Str (walletId info)]);
                     (LLog, [Str "🔑 Public Key:"; Str (publicKeyHex info)]);
                     (LLog, [Str (nl +:+ "New Wallet Address:"); Info info])]
    end.
Proof.
  intros penv W h w. split.
  - apply (AllCalls_run h _ _ w (main_calls penv)).
  - destruct (run_logged_step h (Index.createNewWallet penv (Some "my-secure-password"))
                (fun newWallet => [Str (nl +:+ "New Wallet Address:"); Info newWallet])
                (fun error => [Str "❌ Main execution failed:"; Err error])
                [Str ("🚀 Starting wallet operations..." +:+ nl)]
                [Str "=== Creating New Wallet ==="] w) as (w' & Hc & Hr).
    match type of Hc with
    | _ = ?rhs => change (console (trace (run h (Index.main penv) w)) = rhs) in Hc
    end.
    match type of Hr with
    | _ = ?rhs => change (rejections (trace (run h (Index.main penv) w)) = rhs) in Hr
    end.
    rewrite Hc, Hr.
    pose proof (Surfaces_run h _ None w'
                  (createNewWallet_surfaces penv (Some "my-secure-password"))) as Hs.
    pose proof (createNewWallet_console_end h penv (Some "my-secure-password") w') as He.
    destruct (outcome (run h (Index.createNewWallet penv (Some "my-secure-password")) w'))
      as [info|e].
    + destruct He as [before ->]. rewrite (latest_None_None _ Hs). cbn [last].
      exists ((LLog, [Str ("🚀 Starting wallet operations..." +:+ nl)])
              :: (LLog, [Str "=== Creating New Wallet ==="]) :: before), info.
      simpl. rewrite <- app_assoc. reflexivity.
    + destruct He as [before ->]. rewrite (latest_None_Some _ _ Hs).
      exists ((LLog, [Str ("🚀 Starting wallet operations..." +:+ nl)])
              :: (LLog, [Str "=== Creating New Wallet ==="]) :: before).
      simpl. rewrite <- app_assoc. reflexivity.
Qed.

(** ** What the calls are about *)

Lemma operation_well_aimed penv op :
  AllCalls (well_aimed (target op)) (operation penv op).
Proof. destruct op; unfold operation; all_calls; simpl; auto. Qed.

(** X8: every call of every operation is aimed as the caller asked.  Every
    balance read, signing request, verification and prepared transaction
    names the wallet address the operation was given ([demonstrateSecurity],
    which is given none, signs for its fixed foreign address); a prepared
    transaction always sends 0.001 ether to the null address on Base; every
    public client is created for Base through https://mainnet.base.org; and
    the only modules loaded are viem, viem/chains and viem/utils. *)
Theorem operations_are_well_aimed :
  forall (penv : ProcessEnv) (op : Operation) (W : Type) (h : Handler W) (w : W),
    Forall (fun ev => well_aimed (target op) _ (ev_call ev))
      (trace (run h (operation penv op) w)).
Proof.
  intros penv op W h w. apply AllCalls_run, operation_well_aimed.
Qed.

(** ** The credentials stay out of the console *)

Lemma Similar_refl {A} (p : Prog A) : Similar p p.
Proof. induction p as [a|e|X c k IH]; constructor; auto. Qed.

Lemma Similar_bind {A B} (p1 p2 : Prog A) (f1 f2 : A -> Prog B) :
  Similar p1 p2 -> (forall a, Similar (f1 a) (f2 a)) -> Similar (bind p1 f1) (bind p2 f2).
Proof.
  intros Hp Hf. induction Hp as [a|e|X c1 c2 k1 k2 Hc Hk IH]; simpl; auto.
  - constructor.
  - constructor; auto.
Qed.

Lemma Similar_try_catch {A} (p1 p2 : Prog A) (h1 h2 : Thrown -> Prog A) :
  Similar p1 p2 -> (forall e, Similar (h1 e) (h2 e)) ->
  Similar (try_catch p1 h1) (try_catch p2 h2).
Proof.
  intros Hp Hh. induction Hp as [a|e|X c1 c2 k1 k2 Hc Hk IH]; simpl; auto.
  - constructor.
  - constructor; auto.
Qed.

Lemma console_line_redact {X} (c : Call X) (x : X) :
  console_line (mkEvent X (redact c) x) = console_line (mkEvent X c x).
Proof. destruct c; reflexivity. Qed.

Lemma Similar_run {W1 W2 A} (R : W1 -> W2 -> Prop) (h1 : Handler W1) (h2 : Handler W2)
    (p1 p2 : Prog A) :
  answers_alike R h1 h2 -> Similar p1 p2 ->
  forall w1 w2, R w1 w2 ->
    console (trace (run h1 p1 w1)) = console (trace (run h2 p2 w2)) /\
    outcome (run h1 p1 w1) = outcome (run h2 p2 w2).
Proof.
  intros Hh Hp. induction Hp as [a|e|X c1 c2 k1 k2 Hc Hk IH]; intros w1 w2 Hw; simpl; auto.
  destruct (Hh X c1 c2 w1 w2 Hc Hw) as [Hr Hw'].
  rewrite Hr.
  destruct (IH (h2 X c2 w2).1 _ _ Hw') as [Hcon Hout].
  split; [|exact Hout].
  unfold console in *. simpl. rewrite Hcon.
  rewrite <- (console_line_redact c1), <- (console_line_redact c2), Hc. reflexivity.
Qed.

Lemma authenticatedEvmClient_similar penv1 penv2 :
  Similar (Index.authenticatedEvmClient penv1) (Index.authenticatedEvmClient penv2).
Proof.
  prog_unfold. simpl. constructor; [reflexivity|].
  intros [e|cl]; simpl; [constructor|].
  constructor; [reflexivity|].
  intros [e|[]]; simpl; constructor.
Qed.

Lemma createNewWallet_similar penv1 penv2 pw :
  Similar (Index.createNewWallet penv1 pw) (Index.createNewWallet penv2 pw).
Proof.
  unfold Index.createNewWallet.
  apply Similar_try_catch; [|intros; apply Similar_refl].
  apply Similar_bind; [apply authenticatedEvmClient_similar|intros; apply Similar_refl].
Qed.

Lemma operation_similar penv1 penv2 op :
  Similar (operation penv1 op) (operation penv2 op).
Proof.
  destruct op; unfold operation.
  - apply Similar_bind; [apply createNewWallet_similar|intros; apply Similar_refl].
  - apply Similar_bind; [|intros; apply Similar_refl].
    unfold Index.initializeExistingWallet.
    apply Similar_try_catch; [|intros; apply Similar_refl].
    apply Similar_bind; [apply authenticatedEvmClient_similar|intros; apply Similar_refl].
  - unfold Index.performWalletOperations.
    apply Similar_bind; [apply Similar_refl|]. intros _.
    apply Similar_try_catch; [|intros; apply Similar_refl].
    apply Similar_bind; [apply authenticatedEvmClient_similar|intros; apply Similar_refl].
  - unfold Index.demonstrateSecurity.
    apply Similar_bind; [apply Similar_refl|]. intros _.
    apply Similar_try_catch; [|intros; apply Similar_refl].
    apply Similar_bind; [apply authenticatedEvmClient_similar|intros; apply Similar_refl].
  - unfold Index.main.
    apply Similar_bind; [apply Similar_refl|]. intros _.
    apply Similar_try_catch; [|intros; apply Similar_refl].
    apply Similar_bind; [apply Similar_refl|]. intros _.
    apply Similar_bind; [apply createNewWallet_similar|intros; apply Similar_refl].
Qed.

(** X9: the configured environment id and token reach nothing but the client
    construction and the token check; they are never printed.  Two runs of an
    operation under different process environments, against environments
    that answer alike when only the credentials of a call differ, print the
    same console lines and end the same way. *)
Theorem credentials_never_reach_the_console :
  forall (penv1 penv2 : ProcessEnv) (op : Operation)
         (W1 W2 : Type) (R : W1 -> W2 -> Prop) (h1 : Handler W1) (h2 : Handler W2)
         (w1 : W1) (w2 : W2),
    answers_alike R h1 h2 -> R w1 w2 ->
    console (trace (run h1 (operation penv1 op) w1)) =
    console (trace (run h2 (operation penv2 op) w2)) /\
    outcome (run h1 (operation penv1 op) w1) = outcome (run h2 (operation penv2 op) w2).
Proof.
  intros penv1 penv2 op W1 W2 R h1 h2 w1 w2 Hh Hw.
  apply (Similar_run R h1 h2 _ _ Hh (operation_similar penv1 penv2 op) w1 w2 Hw).
Qed.

Lemma friendly_answers_alike : answers_alike eq (scripted friendly) (scripted friendly).
Proof.
  assert (Hred : forall X (c : Call X) w,
             scripted friendly X c w = scripted friendly X (redact c) w)
    by (intros X c w; destruct c; reflexivity).
  intros X c1 c2 w1 w2 Hc <-.
  rewrite (Hred X c1), (Hred X c2), Hc. split; reflexivity.
Qed.

Lemma credentials_never_reach_the_console_witness :
  answers_alike eq (scripted friendly) (scripted friendly) /\
  console (trace (run (scripted friendly)
                    (operation demo_env (OpPerformWalletOperations "0xabc" "pw")) 0)) =
  console (trace (run (scripted friendly)
                    (operation other_env (OpPerformWalletOperations "0xabc" "pw")) 0)).
Proof.
  split; [exact friendly_answers_alike|].
  exact (proj1 (credentials_never_reach_the_console demo_env other_env
                  (OpPerformWalletOperations "0xabc" "pw") nat nat eq
                  (scripted friendly) (scripted friendly) 0 0
                  friendly_answers_alike eq_refl)).
Defined.

Lemma console_only_no_rejections (tr : list Event) :
  Forall (fun ev => is_console (ev_call ev) = true) tr -> rejections tr = [].
Proof.
  induction 1 as [|ev tr Hc _ IH]; [reflexivity|].
  change (rejections (ev :: tr))
    with (match ev_rejected ev with
          | Some y => y :: rejections tr
          | None => rejections tr
          end).
  rewrite IH. destruct ev as [X c r]. destruct c; try discriminate Hc. reflexivity.
Qed.

(** X10: the quick-start script never throws and its last console line tells
    how the run went.  When a call was rejected, the last line is "Error:"
    with that rejection; otherwise [createWalletAccount] resolved, whatever
    it reported through [onError] on the way, and the last line is "EVM
    wallet created:" with the address of the wallet it resolved with. *)
Theorem quickstart_reports_the_outcome :
  forall (penv : ProcessEnv) (W : Type) (h : Handler W) (w : W),
    outcome (run h (Quickstart.main penv) w) = Returned tt /\
    match last (rejections (trace (run h (Quickstart.main penv) w))) with
    | Some e =>
        last (console (trace (run h (Quickstart.main penv) w))) =
        Some (LError, [Str "Error:"; Err e])
    | None =>
        exists ev reported wallet,
          In ev (trace (run h (Quickstart.main penv) w)) /\
          create_reply ev = Some (reported, inr wallet) /\
          last (console (trace (run h (Quickstart.main penv) w))) =
          Some (LLog, [Str "EVM wallet created:"; Str (w_accountAddress wallet)])
    end.
Proof.
  intros penv W h w. split.
  - apply outcome_no_throw, Quickstart_main_no_throw.
  - prog_unfold. simpl.
    step_run h; [reflexivity|].
    step_run h; [reflexivity|].
    step_run h. destruct r as [rep settled]. simpl.
    match goal with |- context [run h ?p ?w'] => set (tail := p); set (w3 := w') end.
    assert (Hquiet : Forall (fun ev => is_console (ev_call ev) = true)
                       (trace (run h tail w3))).
    { apply (AllCalls_run h (fun X c => is_console c = true)).
      subst tail. destruct settled; all_calls; reflexivity. }
    assert (Hc : console (trace (run h tail w3)) =
               map (fun e => (LError, [Str "EVM wallet creation error:"; Err e])) rep ++
               [match settled with
                | inl e => (LError, [Str "Error:"; Err e])
                | inr wallet =>
                    (LLog, [Str "EVM wallet created:"; Str (w_accountAddress wallet)])
                end]).
    { subst tail.
      match goal with
      | |- context [try_catch (bind (bind (for_each _ _) ?k1) ?rest) ?hd] =>
          destruct (run_after_reports h
                      (fun error => [Str "EVM wallet creation error:"; Err error])
                      k1 rest hd rep w3) as (w' & _ & Hc)
      end.
      rewrite Hc. destruct settled; reflexivity. }
    unfold rejections, console in *. simpl.
    change (omap ev_rejected (trace (run h tail w3))) with (rejections (trace (run h tail w3))).
    rewrite (console_only_no_rejections _ Hquiet), Hc.
    unfold ev_rejected at 1. simpl.
    destruct settled as [e|wallet]; simpl.
    + apply last_snoc.
    + eexists _, rep, wallet. split; [do 2 right; left; reflexivity|].
      split; [reflexivity|]. apply last_snoc.
Qed.

(** ** What the chain helpers print *)

(** X11: [checkBalance] and [prepareTransaction] print what the chain client
    answered and nothing else.  When the balance was read, it was read for
    the address given and the console shows exactly two lines, the balance in
    wei in decimal and the balance in ether; when the transaction was
    prepared, the console shows exactly its summary (each absent field left
    absent, the others in decimal) and the note that nothing was sent.  When
    a call was rejected, the console shows exactly one line, the failure
    with the message of the rejection, which is "Unknown error" when the
    thrown value is not an [Error]. *)
Theorem chain_helpers_print_what_was_answered :
  forall (evmClient : Client) (walletAddress : string) (W : Type) (h : Handler W) (w : W),
    (forall ev address balance,
       In ev (trace (run h (Index.checkBalance evmClient walletAddress) w)) ->
       balance_read ev = Some (address, balance) ->
       address = walletAddress /\
       console (trace (run h (Index.checkBalance evmClient walletAddress) w)) =
       [(LLog, [Str ("💰 Balance: " +:+ pretty balance +:+ " wei")]);
        (LLog, [EthLine balance])]) /\
    (forall e,
       last (rejections (trace (run h (Index.checkBalance evmClient walletAddress) w)))
         = Some e ->
       console (trace (run h (Index.checkBalance evmClient walletAddress) w)) =
       [(LError, [Str "❌ Balance check failed:"; Str (message_or "Unknown error" e)])]) /\
    (forall ev ptx,
       In ev (trace (run h (Index.prepareTransaction evmClient walletAddress) w)) ->
       prepared_reply ev = Some ptx ->
       console (trace (run h (Index.prepareTransaction evmClient walletAddress) w)) =
       [(LLog, [Str "📝 Transaction prepared:";
                TxSummary (ptx_to ptx) (pretty <$> ptx_value ptx)
                          (pretty <$> ptx_gas ptx) (pretty <$> ptx_gasPrice ptx)]);
        (LLog, [Str "ℹ️  Note: Transaction not sent - this is just preparation demo"])]) /\
    (forall e,
       last (rejections (trace (run h (Index.prepareTransaction evmClient walletAddress) w)))
         = Some e ->
       console (trace (run h (Index.prepareTransaction evmClient walletAddress) w)) =
       [(LError, [Str "❌ Transaction preparation failed:";
                  Str (message_or "Unknown error" e)])]) /\
    (forall shown, message_or "Unknown error" (NonError shown) = "Unknown error").
Proof.
  intros evmClient walletAddress W h w. repeat apply conj.
  - intros ev address balance. run_all h; intros Hin Hb; in_trace;
      try discriminate Hb; injection Hb as <- <-; split; reflexivity.
  - intros e. run_all h; intros Hl; try discriminate Hl; injection Hl as <-; reflexivity.
  - intros ev ptx. run_all h; intros Hin Hp; in_trace;
      try discriminate Hp; injection Hp as <-; reflexivity.
  - intros e. run_all h; intros Hl; try discriminate Hl; injection Hl as <-; reflexivity.
  - reflexivity.
Qed.

(** ** The authenticated client *)

(** X12: [authenticatedEvmClient] prints nothing and hides nothing.  It
    returns a client exactly when the construction and the token check were
    both accepted, and the client it returns is the one constructed; it
    throws exactly when one of the two was rejected, and throws that
    rejection unchanged; a rejected construction is not followed by a token
    check.  The quick-start variant behaves the same, token check included,
    and hands the token to the constructor as well.  Both construct the
    client for the configured environment and check the configured token. *)
Theorem authenticatedEvmClient_contract :
  forall (penv : ProcessEnv) (W : Type) (h : Handler W) (w : W),
    console (trace (run h (Index.authenticatedEvmClient penv) w)) = [] /\
    console (trace (run h (Quickstart.authenticatedEvmClient penv) w)) = [] /\
    match outcome (run h (Index.authenticatedEvmClient penv) w) with
    | Returned cl =>
        rejections (trace (run h (Index.authenticatedEvmClient penv) w)) = [] /\
        authenticated_run (trace (run h (Index.authenticatedEvmClient penv) w)) = true /\
        omap constructed_client (trace (run h (Index.authenticatedEvmClient penv) w)) = [cl]
    | Raised e =>
        rejections (trace (run h (Index.authenticatedEvmClient penv) w)) = [e] /\
        authenticated_run (trace (run h (Index.authenticatedEvmClient penv) w)) = false
    end /\
    match outcome (run h (Quickstart.authenticatedEvmClient penv) w) with
    | Returned cl =>
        rejections (trace (run h (Quickstart.authenticatedEvmClient penv) w)) = [] /\
        authenticated_run
          (trace (run h (Quickstart.authenticatedEvmClient penv) w)) = true /\
        omap constructed_client
          (trace (run h (Quickstart.authenticatedEvmClient penv) w)) = [cl]
    | Raised e =>
        rejections (trace (run h (Quickstart.authenticatedEvmClient penv) w)) = [e] /\
        authenticated_run
          (trace (run h (Quickstart.authenticatedEvmClient penv) w)) = false
    end /\
    Forall (fun ev =>
              match ev_call ev with
              | AuthenticateApiToken _ token => token = DYNAMIC_AUTH_TOKEN penv
              | NewDynamicEvmWalletClient cfg =>
                  cfg_environmentId cfg = DYNAMIC_ENVIRONMENT_ID penv
              | _ => True
              end)
      (trace (run h (Index.authenticatedEvmClient penv) w) ++
       trace (run h (Quickstart.authenticatedEvmClient penv) w)) /\
    Forall (fun ev =>
              match ev_call ev with
              | NewDynamicEvmWalletClient cfg =>
                  cfg_authToken cfg = Some (DYNAMIC_AUTH_TOKEN penv)
              | _ => True
              end)
      (trace (run h (Quickstart.authenticatedEvmClient penv) w)).
Proof.
  intros penv W h w. repeat apply conj; run_all h; repeat constructor.
Qed.

Lemma chain_helpers_print_what_was_answered_witness :
  In friendly_balance_event
     (trace (run (scripted friendly) (Index.checkBalance 0 "0xabc") 1)) /\
  console (trace (run (scripted friendly) (Index.checkBalance 0 "0xabc") 1)) =
  [(LLog, [Str ("💰 Balance: " +:+ pretty 0%Z +:+ " wei")]); (LLog, [EthLine 0])].
Proof.
  assert (Hin : In friendly_balance_event
                  (trace (run (scripted friendly) (Index.checkBalance 0 "0xabc") 1))).
  { vm_compute. do 3 right. left. reflexivity. }
  split; [exact Hin|].
  exact (proj2 (proj1 (chain_helpers_print_what_was_answered 0 "0xabc" nat
                         (scripted friendly) 1)
                      friendly_balance_event "0xabc" 0%Z Hin eq_refl)).
Defined.
